(** * bricklayer.api: the notebook backup workflow and job creation

    A shallow embedding of [src/bricklayer/api/__init__.py] (class [DBSApi]):
    [export_notebook], [import_notebook], [mkdir], [backup_notebook],
    [export_current_notebook_run] and [create_job], together with the parts of
    the Python runtime they rely on ([pathlib.PurePosixPath], [random.randint],
    [datetime.strftime], exceptions with [try]/[finally] and [try]/[except]).

    Python [str] values are modelled as [string]; every string the code
    inspects is cut at the ASCII character '/', so working on bytes or on code
    points makes no difference for paths that start with '/'. *)

From Stdlib Require Import String Ascii List ZArith Lia Bool DecimalString.
From Stdlib Require Import DecimalZ DecimalPos.
Import ListNotations.
Local Open Scope string_scope.
Local Open Scope list_scope.

(** ** pathlib.PurePosixPath *)

Module pathlib.

Definition sep : ascii := "/"%char.

(** [str.split('/')]: never returns the empty list. *)
Fixpoint split (s : string) : list string :=
  match s with
  | EmptyString => [EmptyString]
  | String c s' =>
      if Ascii.eqb c sep then EmptyString :: split s'
      else match split s' with
           | [] => [String c EmptyString]
           | h :: t => String c h :: t
           end
  end.

(** [str.lstrip('/')]. *)
Fixpoint lstrip (s : string) : string :=
  match s with
  | String c s' => if Ascii.eqb c sep then lstrip s' else s
  | EmptyString => EmptyString
  end.

(** ['/'.join(parts)]. *)
Fixpoint join (l : list string) : string :=
  match l with
  | [] => EmptyString
  | [x] => x
  | x :: (_ :: _) as t => (x ++ String sep (join t))%string
  end.

(** A parsed path: [_root] is [""], ["/"] or ["//"]; [names] are the
    components after the anchor (CPython's [_parts] without its leading
    anchor entry).  A POSIX path never has a drive. *)
Record PurePosixPath : Type := mkPath { root : string; names : list string }.

(** [_PosixFlavour.splitroot]: exactly two leading slashes are kept, any
    other positive number collapses to one. *)
Definition splitroot (part : string) : string * string :=
  match part with
  | String c _ =>
      if Ascii.eqb c sep then
        let stripped := lstrip part in
        if Nat.eqb (String.length part - String.length stripped) 2
        then ("//", stripped) else ("/", stripped)
      else ("", part)
  | EmptyString => ("", part)
  end.

Definition keep_name (x : string) : bool :=
  negb (String.eqb x "") && negb (String.eqb x ".").

(** [parse_parts] on one argument: empty and ["."] components are dropped. *)
Definition parse (s : string) : PurePosixPath :=
  let '(r, rel) := splitroot s in
  mkPath r (filter keep_name (split rel)).

(** [pathlib.Path(s)]. *)
Definition Path (s : string) : PurePosixPath := parse s.

(** [join_parsed_parts] without drives: an anchored argument replaces the
    receiver, any other argument is appended. *)
Definition joinpath (p : PurePosixPath) (arg : string) : PurePosixPath :=
  let q := parse arg in
  if String.eqb (root q) "" then mkPath (root p) (names p ++ names q)
  else q.

(** [__str__] / [as_posix]: the empty path prints as ["."]. *)
Definition as_posix (p : PurePosixPath) : string :=
  let s := (root p ++ join (names p))%string in
  if String.eqb s "" then "." else s.

(** [parent]: the anchor and the empty path are their own parents. *)
Definition parent (p : PurePosixPath) : PurePosixPath :=
  match names p with
  | [] => p
  | _ :: _ => mkPath (root p) (removelast (names p))
  end.

(** [name]: the final component, [""] when there is none. *)
Definition name (p : PurePosixPath) : string := last (names p) "".

Definition is_absolute (p : PurePosixPath) : bool :=
  negb (String.eqb (root p) "").

End pathlib.

(** ** Shapes of strings used in the statements *)

(** No character of [s] is '/' or '.'. *)
Fixpoint plain (s : string) : bool :=
  match s with
  | EmptyString => true
  | String c s' =>
      negb (Ascii.eqb c "/") && negb (Ascii.eqb c ".") && plain s'
  end.

Fixpoint no_slash (s : string) : bool :=
  match s with
  | EmptyString => true
  | String c s' => negb (Ascii.eqb c pathlib.sep) && no_slash s'
  end.

(** [s] is one path component: it has no '/', and is neither empty nor ["."]. *)
Definition is_name (s : string) : bool := pathlib.keep_name s && no_slash s.

(** ** Python values the code inspects *)

(** What [requests.Response.json()] and the Jobs API hand back. A [JObj]
    lists the items of the parsed dictionary. *)
#[local] Set Warnings "-register-all".
Inductive json : Type :=
| JNull
| JBool (b : bool)
| JNum (n : Z)
| JStr (s : string)
| JArr (items : list json)
| JObj (items : list (string * json)).

(** The [response] attribute of a [requests.exceptions.HTTPError]: the body
    is [None] when it is not a JSON document. *)
Record Response : Type := mkResponse { json_body : option json }.

(** Exceptions. [HTTPError] and [OtherError] come from the collaborators and
    carry an identity ([ident], standing for the object's address) and a
    message; the others are raised by the interpreter while running this
    module. The [__context__] chain of an exception is not modelled. *)
Inductive exn : Type :=
| HTTPError (ident : nat) (message : string) (response : option Response)
| OtherError (ident : nat) (cls : string) (message : string)
| AssertionError
| AttributeError
| JSONDecodeError
| KeyError (key : string)
| TypeError
| ValueError.

Inductive result (A : Type) : Type :=
| Return (a : A)
| Raise (e : exn).
Arguments Return {A} a.
Arguments Raise {A} e.

(** [str(n)] for a Python [int]. *)
Definition str_int (n : Z) : string := NilZero.string_of_int (Z.to_int n).

(** [s[1:]]. *)
Definition slice_from_1 (s : string) : string :=
  match s with
  | EmptyString => EmptyString
  | String _ s' => s'
  end.

(** An optional [str] argument that tests true: [None] and [''] do not. *)
Definition if_truthy (o : option string) : option string :=
  match o with
  | Some s => if String.eqb s "" then None else Some s
  | None => None
  end.

Definition is_None {A} (o : option A) : bool :=
  match o with None => true | Some _ => false end.

Fixpoint dict_get (items : list (string * json)) (key : string) : option json :=
  match items with
  | [] => None
  | (k, v) :: rest => if String.eqb k key then Some v else dict_get rest key
  end.

(** [obj[key]] with a [str] key: only a dictionary can be subscripted so. *)
Definition getitem (obj : json) (key : string) : result json :=
  match obj with
  | JObj items =>
      match dict_get items key with
      | Some v => Return v
      | None => Raise (KeyError key)
      end
  | _ => Raise TypeError
  end.

(** [_e.response.json()]. *)
Definition response_json (response : option Response) : result json :=
  match response with
  | None => Raise AttributeError
  | Some r =>
      match json_body r with
      | Some j => Return j
      | None => Raise JSONDecodeError
      end
  end.

(** [value == 'literal']. *)
Definition eq_str (value : json) (literal : string) : bool :=
  match value with
  | JStr s => String.eqb s literal
  | _ => false
  end.

(** ** datetime *)

Record datetime : Type :=
  mkDatetime { year : Z; month : Z; day : Z; hour : Z; minute : Z; second : Z }.

Definition zero_pad (width : nat) (n : Z) : string :=
  let digits := str_int n in
  (String.concat "" (repeat "0" (width - String.length digits)) ++ digits)%string.

(** [strftime('%Y%m%d%H%M%S')]. *)
Definition strftime (d : datetime) : string :=
  (zero_pad 4 (year d) ++ zero_pad 2 (month d) ++ zero_pad 2 (day d)
   ++ zero_pad 2 (hour d) ++ zero_pad 2 (minute d) ++ zero_pad 2 (second d))%string.

(** ** Calls that leave the module *)

(** The body sent to [JobsApi.create_job]. *)
Record job_settings : Type := mkJobSettings {
  js_name : string;
  js_existing_cluster_id : string;
  js_notebook_path : string;
  js_on_success : list (option string);
  js_on_failure : list (option string)
}.

Inductive call : Type :=
| Ctx_get_notebook_path
| Ctx_get_notebook_cluster_id
| Datetime_now
| Random_randint (a b : Z)
| Workspace_export (source_path target_path fmt : string) (is_overwrite : bool)
| Workspace_import (source_path target_path language fmt : string) (is_overwrite : bool)
| Workspace_mkdirs (dir_path : string)
| Path_unlink (path : string)
| Cluster_get_cluster_id_for_name (cluster_name : string)
| Jobs_create_job (settings : job_settings).

(** Calls served by the remote API client (workspace, clusters, jobs). *)
Definition is_remote (c : call) : bool :=
  match c with
  | Workspace_export _ _ _ _ | Workspace_import _ _ _ _ _ | Workspace_mkdirs _
  | Cluster_get_cluster_id_for_name _ | Jobs_create_job _ => true
  | _ => false
  end.

Definition is_export (c : call) : bool :=
  match c with Workspace_export _ _ _ _ => true | _ => false end.

Definition is_import (c : call) : bool :=
  match c with Workspace_import _ _ _ _ _ => true | _ => false end.

Definition is_mkdirs (c : call) : bool :=
  match c with Workspace_mkdirs _ => true | _ => false end.

Definition is_unlink (c : call) : bool :=
  match c with Path_unlink _ => true | _ => false end.

Definition count (f : call -> bool) (t : list call) : nat := length (filter f t).

(** The collaborators, over a world [W] they may read and change.
    [get_notebook_path] and [get_notebook_cluster_id] stand for
    [get_notebook_context().get_notebook_path()] and
    [get_notebook_context().get_notebook_cluster_id()]: [get_notebook_context]
    is defined in the package's top module and is taken as given here.
    [random_draw] is the generator's next draw, an arbitrary natural number. *)
Class Collaborators (W : Type) : Type := {
  get_notebook_path : W -> result string * W;
  get_notebook_cluster_id : W -> result string * W;
  datetime_now : W -> datetime * W;
  random_draw : W -> N * W;
  export_workspace : string -> string -> string -> bool -> W -> result unit * W;
  import_workspace : string -> string -> string -> string -> bool -> W -> result unit * W;
  mkdirs : string -> W -> result unit * W;
  unlink : string -> W -> result unit * W;
  get_cluster_id_for_name : string -> W -> result string * W;
  jobs_create_job : job_settings -> W -> result json * W
}.

(** ** The interpreter: state, exceptions and a log of calls *)

Record state (W : Type) : Type := mkState { world : W; trace : list call }.
Arguments mkState {W} world trace.
Arguments world {W} s.
Arguments trace {W} s.

Definition M (W A : Type) : Type := state W -> result A * state W.

Definition ret {W A} (a : A) : M W A := fun s => (Return a, s).

Definition raise {W A} (e : exn) : M W A := fun s => (Raise e, s).

Definition bind {W A B} (m : M W A) (k : A -> M W B) : M W B :=
  fun s =>
    match m s with
    | (Return a, s') => k a s'
    | (Raise e, s') => (Raise e, s')
    end.

Definition lift {W A} (r : result A) : M W A := fun s => (r, s).

(** One call of a collaborator: logged, then answered by the world. *)
Definition perform {W A} (c : call) (h : W -> result A * W) : M W A :=
  fun s =>
    let '(r, w) := h (world s) in
    (r, mkState w (trace s ++ [c])).

(** [try: body finally: cleanup]. The cleanup runs on both exits; when it
    raises, its exception replaces the outcome of the body. *)
Definition try_finally {W A} (body : M W A) (cleanup : M W unit) : M W A :=
  fun s =>
    let '(r, s1) := body s in
    match cleanup s1 with
    | (Return _, s2) => (r, s2)
    | (Raise e, s2) => (Raise e, s2)
    end.

(** [try: body except ...: handler]. [handler e] is [None] when no clause
    matches [e], which then propagates. *)
Definition try_except {W A} (body : M W A) (handler : exn -> option (M W A)) : M W A :=
  fun s =>
    match body s with
    | (Return a, s1) => (Return a, s1)
    | (Raise e, s1) =>
        match handler e with
        | Some h => h s1
        | None => (Raise e, s1)
        end
    end.

(** [assert cond], with assertions enabled (the interpreter's default). *)
Definition assert {W} (cond : bool) : M W unit :=
  if cond then ret tt else raise AssertionError.

Declare Scope py_scope.
Delimit Scope py_scope with py.
Notation "x <- m ;; k" := (bind m (fun x => k))
  (at level 61, m at next level, right associativity) : py_scope.
Notation "m ;; k" := (bind m (fun _ => k))
  (at level 61, right associativity) : py_scope.
Local Open Scope py_scope.

(** ** class DBSApi *)

Module DBSApi.
Section Methods.

Context {W : Type} {collab : Collaborators W}.

(** [random.randint(a, b)]: [a + _randbelow(b - a + 1)], a [ValueError] on
    an empty range. *)
Definition randint (a b : Z) : M W Z :=
  if (b - a + 1 <=? 0)%Z then raise ValueError
  else perform (Random_randint a b)
         (fun w => let '(r, w') := random_draw w in
                   (Return (a + Z.of_N r mod (b - a + 1))%Z, w')).

Definition now : M W datetime :=
  perform Datetime_now (fun w => let '(d, w') := datetime_now w in (Return d, w')).

(** [Path.unlink()] on the local file system. *)
Definition path_unlink (p : pathlib.PurePosixPath) : M W unit :=
  perform (Path_unlink (pathlib.as_posix p)) (unlink (pathlib.as_posix p)).

Definition export_notebook (source_path target_path fmt : string)
    (is_overwrite : bool) : M W unit :=
  perform (Workspace_export source_path target_path fmt is_overwrite)
          (export_workspace source_path target_path fmt is_overwrite).

Definition import_notebook (source_path target_path language fmt : string)
    (is_overwrite : bool) : M W unit :=
  perform (Workspace_import source_path target_path language fmt is_overwrite)
          (import_workspace source_path target_path language fmt is_overwrite).

Definition mkdir (dir_path : string) : M W unit :=
  perform (Workspace_mkdirs dir_path) (mkdirs dir_path).

Definition default_tmp_dir : string := "/dbfs/mnt/external/tmp/".

(** The staging file of one backup, given the number drawn. *)
Definition intermediate_location (tmp_dir : string) (n : Z) : pathlib.PurePosixPath :=
  let tmp_name := ("backup_" ++ str_int n)%string in
  pathlib.joinpath (pathlib.Path tmp_dir) tmp_name.

(** [import_notebook] receives the [Path] object itself; the workspace
    client opens it as the file named by its string form. *)
Definition backup_notebook (source_path target_path tmp_dir : string) : M W unit :=
  n <- randint 0 1000 ;;
  let location := intermediate_location tmp_dir n in
  export_notebook source_path (pathlib.as_posix location) "DBC" false ;;
  try_finally
    (import_notebook (pathlib.as_posix location) target_path "PYTHON" "DBC" false)
    (path_unlink location).

Definition default_runs_dir : string := "/Shared/runs/".

Definition run_target_path (runs_dir current_path timestamp : string)
    : pathlib.PurePosixPath :=
  pathlib.joinpath
    (pathlib.joinpath (pathlib.Path runs_dir) (slice_from_1 current_path))
    timestamp.

(** The body of the [except requests.exceptions.HTTPError as _e] clause. *)
Definition on_http_error (_e : exn) (response : option Response)
    (current_path : string) (target_path : pathlib.PurePosixPath) : M W unit :=
  body <- lift (response_json response) ;;
  error_code <- lift (getitem body "error_code") ;;
  if eq_str error_code "RESOURCE_DOES_NOT_EXIST" then
    mkdir (pathlib.as_posix (pathlib.parent target_path)) ;;
    backup_notebook current_path (pathlib.as_posix target_path) default_tmp_dir
  else raise _e.

Definition export_current_notebook_run (runs_dir : string) : M W unit :=
  current_path <- perform Ctx_get_notebook_path get_notebook_path ;;
  d <- now ;;
  let timestamp := strftime d in
  let target_path := run_target_path runs_dir current_path timestamp in
  try_except
    (backup_notebook current_path (pathlib.as_posix target_path) default_tmp_dir)
    (fun _e =>
       match _e with
       | HTTPError _ _ response =>
           Some (on_http_error _e response current_path target_path)
       | _ => None
       end).

(** The object [create_job] returns. *)
Record DBJob : Type := mkDBJob { job_id : json }.

(** The relative-path step of [create_job]. *)
Definition resolve_notebook_path (notebook_path : string) : M W string :=
  if negb (pathlib.is_absolute (pathlib.Path notebook_path)) then
    current <- perform Ctx_get_notebook_path get_notebook_path ;;
    ret (pathlib.as_posix
           (pathlib.joinpath (pathlib.parent (pathlib.Path current)) notebook_path))
  else ret notebook_path.

(** The [if cluster_name: ... elif cluster_id: ... else: ...] block. *)
Definition select_cluster (cluster_name cluster_id : option string) : M W string :=
  match if_truthy cluster_name with
  | Some name =>
      assert (is_None cluster_id) ;;
      perform (Cluster_get_cluster_id_for_name name) (get_cluster_id_for_name name)
  | None =>
      match if_truthy cluster_id with
      | Some id => ret id
      | None => perform Ctx_get_notebook_cluster_id get_notebook_cluster_id
      end
  end.

Definition create_job (notebook_path : string)
    (job_name cluster_name cluster_id notifications_email : option string)
    : M W DBJob :=
  _cluster_id <- select_cluster cluster_name cluster_id ;;
  let _job_name :=
    match if_truthy job_name with
    | Some name => name
    | None => notebook_path
    end in
  resolved <- resolve_notebook_path notebook_path ;;
  let _json :=
    mkJobSettings _job_name _cluster_id resolved
                  [notifications_email] [notifications_email] in
  jobdata <- perform (Jobs_create_job _json) (jobs_create_job _json) ;;
  id <- lift (getitem jobdata "job_id") ;;
  ret (mkDBJob id).

End Methods.
End DBSApi.

(** ** A scripted world

    Collaborators that answer from a script: each operation takes its next
    outcome from its own list, and succeeds once the list is exhausted. *)

Module Script.

Record world : Type := mkWorld {
  notebook_path : result string;
  cluster_id : result string;
  clock : datetime;
  draws : list N;
  exports : list (result unit);
  imports : list (result unit);
  mkdirs_ : list (result unit);
  unlinks : list (result unit);
  cluster_lookup : result string;
  created_job : result json
}.

Definition next (l : list (result unit)) : result unit * list (result unit) :=
  match l with
  | [] => (Return tt, [])
  | r :: rest => (r, rest)
  end.

Definition set_notebook_path (w : world) (r : result string) : world :=
  mkWorld r (cluster_id w) (clock w) (draws w) (exports w) (imports w)
          (mkdirs_ w) (unlinks w) (cluster_lookup w) (created_job w).

Definition set_draws (w : world) (l : list N) : world :=
  mkWorld (notebook_path w) (cluster_id w) (clock w) l (exports w) (imports w)
          (mkdirs_ w) (unlinks w) (cluster_lookup w) (created_job w).

Definition set_exports (w : world) (l : list (result unit)) : world :=
  mkWorld (notebook_path w) (cluster_id w) (clock w) (draws w) l (imports w)
          (mkdirs_ w) (unlinks w) (cluster_lookup w) (created_job w).

Definition set_imports (w : world) (l : list (result unit)) : world :=
  mkWorld (notebook_path w) (cluster_id w) (clock w) (draws w) (exports w) l
          (mkdirs_ w) (unlinks w) (cluster_lookup w) (created_job w).

Definition set_mkdirs (w : world) (l : list (result unit)) : world :=
  mkWorld (notebook_path w) (cluster_id w) (clock w) (draws w) (exports w) (imports w)
          l (unlinks w) (cluster_lookup w) (created_job w).

Definition set_unlinks (w : world) (l : list (result unit)) : world :=
  mkWorld (notebook_path w) (cluster_id w) (clock w) (draws w) (exports w) (imports w)
          (mkdirs_ w) l (cluster_lookup w) (created_job w).

#[global] Instance collaborators : Collaborators world := {
  get_notebook_path w := (notebook_path w, w);
  get_notebook_cluster_id w := (cluster_id w, w);
  datetime_now w := (clock w, w);
  random_draw w :=
    match draws w with
    | [] => (0%N, w)
    | n :: rest => (n, set_draws w rest)
    end;
  export_workspace _ _ _ _ w :=
    let '(r, rest) := next (exports w) in (r, set_exports w rest);
  import_workspace _ _ _ _ _ w :=
    let '(r, rest) := next (imports w) in (r, set_imports w rest);
  mkdirs _ w := let '(r, rest) := next (mkdirs_ w) in (r, set_mkdirs w rest);
  unlink _ w := let '(r, rest) := next (unlinks w) in (r, set_unlinks w rest);
  get_cluster_id_for_name _ w := (cluster_lookup w, w);
  jobs_create_job _ w := (created_job w, w)
}.

(** 15 January 2024, 09:30:00. *)
Definition a_morning : datetime := mkDatetime 2024 1 15 9 30 0.

(** A world in which every call succeeds; the current notebook is
    [/Users/a/nb]. *)
Definition calm : world :=
  mkWorld (Return "/Users/a/nb") (Return "0115-093000-abc123") a_morning
          [5%N] [] [] [] [] (Return "0115-093000-xyz789")
          (Return (JObj [("job_id", JNum 42)])).

Definition not_found : exn :=
  HTTPError 1 "404 Client Error: Not Found"
    (Some (mkResponse (Some (JObj [("error_code", JStr "RESOURCE_DOES_NOT_EXIST");
                                   ("message", JStr "Path does not exist")])))).

Definition forbidden : exn :=
  HTTPError 2 "403 Client Error: Forbidden"
    (Some (mkResponse (Some (JObj [("error_code", JStr "PERMISSION_DENIED");
                                   ("message", JStr "No access")])))).

Definition os_error : exn := OtherError 3 "PermissionError" "[Errno 13] Permission denied".

Definition start (w : world) : state world := mkState w [].

End Script.

(** ** Further predicates on calls *)

(** A workspace transfer made with the defaults of [export_notebook] and
    [import_notebook]: format "DBC", language "PYTHON", no overwrite. Every
    other call passes. *)
Definition transfer_defaults (c : call) : bool :=
  match c with
  | Workspace_export _ _ fmt is_overwrite =>
      String.eqb fmt "DBC" && negb is_overwrite
  | Workspace_import _ _ language fmt is_overwrite =>
      String.eqb language "PYTHON" && String.eqb fmt "DBC" && negb is_overwrite
  | _ => true
  end.

Definition is_jobs_create (c : call) : bool :=
  match c with Jobs_create_job _ => true | _ => false end.

Definition is_cluster_lookup (c : call) : bool :=
  match c with Cluster_get_cluster_id_for_name _ => true | _ => false end.

Definition is_context_cluster (c : call) : bool :=
  match c with Ctx_get_notebook_cluster_id => true | _ => false end.

(** ** Reading timestamps *)

Definition is_digit (c : ascii) : bool :=
  (48 <=? N_of_ascii c)%N && (N_of_ascii c <=? 57)%N.

Fixpoint all_digits (s : string) : bool :=
  match s with
  | EmptyString => true
  | String c s' => is_digit c && all_digits s'
  end.

(** A string of digits read as a decimal numeral. *)
Fixpoint decimal_value (s : string) : Z :=
  match s with
  | EmptyString => 0%Z
  | String c s' =>
      ((Z.of_N (N_of_ascii c) - 48) * 10 ^ Z.of_nat (String.length s')
       + decimal_value s')%Z
  end.

(** The fields of a [datetime] object are within these bounds; years below
    1000, which some platforms print on fewer than four digits, are left
    out. *)
Definition valid_datetime (d : datetime) : Prop :=
  (1000 <= year d <= 9999 /\ 1 <= month d <= 12 /\ 1 <= day d <= 31
   /\ 0 <= hour d <= 23 /\ 0 <= minute d <= 59 /\ 0 <= second d <= 59)%Z.

Definition then_by (first rest : comparison) : comparison :=
  match first with
  | Eq => rest
  | _ => first
  end.

(** Comparison of two dates, most significant field first. *)
Definition chronological (d1 d2 : datetime) : comparison :=
  then_by (year d1 ?= year d2)%Z
    (then_by (month d1 ?= month d2)%Z
       (then_by (day d1 ?= day d2)%Z
          (then_by (hour d1 ?= hour d2)%Z
             (then_by (minute d1 ?= minute d2)%Z (second d1 ?= second d2)%Z)))).

(** [s] is a numeral of [len] digits whose value is [v]. *)
Definition numeral (s : string) (len : nat) (v : Z) : Prop :=
  all_digits s = true /\ String.length s = len /\ decimal_value s = v.

(** The check run on every number of a range: padding gives a numeral of the
    width asked for that reads back as the number. *)
Definition pad_ok (width : nat) (n : Z) : bool :=
  all_digits (zero_pad width n)
  && Nat.eqb (String.length (zero_pad width n)) width
  && Z.eqb (decimal_value (zero_pad width n)) n.

(** The number a timestamp spells. *)
Definition timestamp_number (d : datetime) : Z :=
  (year d * 10000000000 + month d * 100000000 + day d * 1000000
   + hour d * 10000 + minute d * 100 + second d)%Z.

(** ** Jobs, runs and the client: classes [DBJobRun] and [DBJob], [DBSApi.__init__] *)

(** [obj.get(key)]: a dictionary answers [None] for a key it does not have;
    no other JSON value has a [get] method. *)
Definition get_method (obj : json) (key : string) : result json :=
  match obj with
  | JObj items =>
      match dict_get items key with
      | Some v => Return v
      | None => Return JNull
      end
  | _ => Raise AttributeError
  end.

(** The arguments [ApiClient] is built from. *)
Record ApiClient : Type := mkApiClient {
  client_host : string;
  client_apiVersion : string;
  client_token : string
}.

(** The optional arguments of [run_now], passed on as they are ([JNull] for
    [None]). *)
Record run_params : Type := mkRunParams {
  jar_params : json;
  notebook_params : json;
  python_params : json;
  spark_submit_params : json
}.

(** A [DBJobRun]: the job it was started from and the id of the run. The API
    client every object carries is left implicit, as in [DBSApi]. *)
Record DBJobRun : Type := mkDBJobRun { run_job : DBSApi.DBJob; run_id : json }.

(** A [DBJob] with its mutable attribute [runs]. *)
Record DBJobObject : Type := mkDBJobObject { handle : DBSApi.DBJob; runs : list DBJobRun }.

(** [DBJob.__init__]: a new job has no runs. *)
Definition new_job (j : DBSApi.DBJob) : DBJobObject := mkDBJobObject j [].

Inductive api_call : Type :=
| Ctx_get_api_token
| Ctx_get_browser_host_name_url
| Jobs_run_now (job : json) (params : run_params)
| Runs_get_run (run : json)
| Runs_get_run_output (run : json).

(** The services these classes call, over a world [W]. *)
Class Services (W : Type) : Type := {
  get_api_token : W -> result string * W;
  get_browser_host_name_url : W -> result string * W;
  jobs_run_now : json -> run_params -> W -> result json * W;
  runs_get_run : json -> W -> result json * W;
  runs_get_run_output : json -> W -> result json * W
}.

(** Computations that log their calls to the services. *)
Definition L (W A : Type) : Type := W * list api_call -> result A * (W * list api_call).

Definition lret {W A} (a : A) : L W A := fun st => (Return a, st).

Definition lbind {W A B} (m : L W A) (k : A -> L W B) : L W B :=
  fun st =>
    match m st with
    | (Return a, st') => k a st'
    | (Raise e, st') => (Raise e, st')
    end.

Definition llift {W A} (r : result A) : L W A := fun st => (r, st).

Definition request {W A} (c : api_call) (h : W -> result A * W) : L W A :=
  fun st =>
    let '(r, w) := h (fst st) in
    (r, (w, snd st ++ [c])).

Declare Scope log_scope.
Delimit Scope log_scope with log.
Notation "x <- m ;; k" := (lbind m (fun x => k))
  (at level 61, m at next level, right associativity) : log_scope.

Module Run.
Section Methods.

Context {W : Type} {services : Services W}.

(** The [data] property: every read asks the Runs API again. *)
Definition data (self : DBJobRun) : L W json :=
  request (Runs_get_run (run_id self)) (runs_get_run (run_id self)).

Definition result_state (self : DBJobRun) : L W json :=
  (d <- data self ;;
   state <- llift (getitem d "state") ;;
   llift (get_method state "result_state"))%log.

Definition life_cycle_state (self : DBJobRun) : L W json :=
  (d <- data self ;;
   state <- llift (getitem d "state") ;;
   llift (get_method state "life_cycle_state"))%log.

Definition state_message (self : DBJobRun) : L W json :=
  (d <- data self ;;
   state <- llift (getitem d "state") ;;
   llift (get_method state "state_message"))%log.

Definition run_page_url (self : DBJobRun) : L W json :=
  (d <- data self ;; llift (getitem d "run_page_url"))%log.

Definition attempt_number (self : DBJobRun) : L W json :=
  (d <- data self ;; llift (getitem d "attempt_number"))%log.

Definition get_run_output (self : DBJobRun) : L W json :=
  (d <- request (Runs_get_run_output (run_id self)) (runs_get_run_output (run_id self)) ;;
   llift (get_method d "notebook_output"))%log.

End Methods.
End Run.

Module Job.
Section Methods.

Context {W : Type} {services : Services W}.

(** [run_now]: besides its outcome and the state of the services it gives the
    job object after the call, whose [runs] it may have extended. *)
Definition run_now (self : DBJobObject) (params : run_params)
    (st : W * list api_call) : result DBJobRun * DBJobObject * (W * list api_call) :=
  match request (Jobs_run_now (DBSApi.job_id (handle self)) params)
                (jobs_run_now (DBSApi.job_id (handle self)) params) st with
  | (Raise e, st') => (Raise e, self, st')
  | (Return d, st') =>
      match getitem d "run_id" with
      | Raise e => (Raise e, self, st')
      | Return id =>
          let run := mkDBJobRun (handle self) id in
          (Return run, mkDBJobObject (handle self) (runs self ++ [run]), st')
      end
  end.

End Methods.
End Job.

Module Client.
Section Methods.

Context {W : Type} {services : Services W}.

(** [DBSApi.__init__]: a token or host passed as [None] is read from the
    notebook context, and the client is built from the three values. *)
Definition init (token host : option string) (apiVersion : string) : L W ApiClient :=
  (token' <- match token with
             | None => request Ctx_get_api_token get_api_token
             | Some t => lret t
             end ;;
   host' <- match host with
            | None => request Ctx_get_browser_host_name_url get_browser_host_name_url
            | Some h => lret h
            end ;;
   lret (mkApiClient host' apiVersion token'))%log.

End Methods.
End Client.

(** Scripted services: the Jobs and Runs APIs answer from lists, and with an
    empty dictionary once a list is exhausted. *)
Module RunScript.

Record world : Type := mkWorld {
  api_token : result string;
  browser_host : result string;
  run_now_answers : list (result json);
  get_run_answers : list (result json);
  output_answers : list (result json)
}.

Definition next (l : list (result json)) : result json * list (result json) :=
  match l with
  | [] => (Return (JObj []), [])
  | r :: rest => (r, rest)
  end.

#[global] Instance services : Services world := {
  get_api_token w := (api_token w, w);
  get_browser_host_name_url w := (browser_host w, w);
  jobs_run_now _ _ w :=
    let '(r, rest) := next (run_now_answers w) in
    (r, mkWorld (api_token w) (browser_host w) rest (get_run_answers w) (output_answers w));
  runs_get_run _ w :=
    let '(r, rest) := next (get_run_answers w) in
    (r, mkWorld (api_token w) (browser_host w) (run_now_answers w) rest (output_answers w));
  runs_get_run_output _ w :=
    let '(r, rest) := next (output_answers w) in
    (r, mkWorld (api_token w) (browser_host w) (run_now_answers w) (get_run_answers w) rest)
}.

(** A run that is still going: its state has no [result_state] yet. *)
Definition running : json :=
  JObj [("run_id", JNum 7);
        ("state", JObj [("life_cycle_state", JStr "RUNNING");
                        ("state_message", JStr "In run")]);
        ("run_page_url", JStr "https://host/#job/42/run/7");
        ("attempt_number", JNum 0)].

Definition quiet : world :=
  mkWorld (Return "dapi-token") (Return "https://host") [] [] [].

Definition no_params : run_params := mkRunParams JNull JNull JNull JNull.

Definition job_42 : DBJobObject := new_job (DBSApi.mkDBJob (JNum 42)).

Definition run_7 : DBJobRun := mkDBJobRun (DBSApi.mkDBJob (JNum 42)) (JNum 7).

End RunScript.

(** ** bricklayer.display.map: choosing the geometry column, bounds *)

Module MapLayer.

(** The exceptions these methods raise. *)
Inductive error : Type :=
| ValueError (message : string)
| IndexError
| TypeError.

Inductive outcome (A : Type) : Type :=
| Ok (a : A)
| Err (e : error).
Arguments Ok {A} a.
Arguments Err {A} e.

(** [needle in hay] for two strings. *)
Fixpoint contains (needle hay : string) : bool :=
  match hay with
  | EmptyString => String.eqb needle ""
  | String _ hay' => String.prefix needle hay || contains needle hay'
  end.

(** [s.endswith(suffix)]. *)
Fixpoint endswith (s suffix : string) : bool :=
  String.eqb s suffix
  || match s with
     | EmptyString => false
     | String _ s' => endswith s' suffix
     end.

(** The loop of [get_geometry_col] over the column names, [candidates] being
    the list built so far. *)
Fixpoint collect (columns candidates : list string) : list string :=
  match columns with
  | [] => candidates
  | column :: rest =>
      collect rest
        (if contains "geom" column then candidates ++ [column]
         else if contains "geography" column then candidates ++ [column]
         else if endswith column "wkt" then candidates ++ [column]
         else candidates)
  end.

(** [get_geometry_col(geometry_col, data_frame)], on the column names of the
    frame (all of them strings). *)
Definition get_geometry_col (geometry_col : option string) (columns : list string)
    : outcome string :=
  match geometry_col with
  | Some name =>
      if negb (existsb (String.eqb name) columns)
      then Err (ValueError ("Column " ++ name ++ " not found in data columns"))
      else Ok name
  | None =>
      let candidates := collect columns [] in
      if Nat.ltb 1 (length candidates)
      then Err (ValueError "Specify the geometry_col argument for the data")
      else match candidates with
           | [] => Err IndexError
           | first :: _ => Ok first
           end
  end.

(** A column name that one of the three tests of the loop accepts. *)
Definition looks_like_geometry (column : string) : bool :=
  contains "geom" column || contains "geography" column || endswith column "wkt".

Section Bounds.

(** Coordinates and their [<]. Python's [min(a, b)] answers [b] when
    [b < a] and [a] otherwise; [max(a, b)] answers [b] when [b > a], which
    for numbers is [a < b]. *)
Context {T : Type} (lt : T -> T -> bool).

Definition min2 (a b : T) : T := if lt b a then b else a.

Definition max2 (a b : T) : T := if lt a b then b else a.

(** A bounding box [(minx, miny, maxx, maxy)]. *)
Definition box : Type := (T * T * T * T)%type.

(** One round of the loop of [get_bounds]; [None] stands for the four
    variables still being [None]. *)
Definition widen (acc : option box) (b : box) : option box :=
  match acc with
  | None => Some b
  | Some (minx, miny, maxx, maxy) =>
      let '(_minx, _miny, _maxx, _maxy) := b in
      Some (min2 minx _minx, min2 miny _miny, max2 maxx _maxx, max2 maxy _maxy)
  end.

(** [Layer.get_bounds], on the bounds of the geometries of the layer in row
    order. *)
Definition get_bounds (geoms_bounds : list box) : option box :=
  fold_left widen geoms_bounds None.

(** The loop of [Map.get_bounds] over the bounds the layers report, [acc]
    being the four variables. A layer without geometries reports four [None]:
    they are stored while the variables are still [None], and [min] refuses
    to compare them with a number afterwards. *)
Fixpoint map_widen (layers_bounds : list (option box)) (acc : option box)
    : outcome (option box) :=
  match layers_bounds with
  | [] => Ok acc
  | reported :: rest =>
      match acc with
      | None => map_widen rest reported
      | Some _ =>
          match reported with
          | Some b => map_widen rest (widen acc b)
          | None => Err TypeError
          end
      end
  end.

(** [Map.get_bounds], each layer given by the bounds of its geometries. *)
Definition map_get_bounds (layers : list (list box)) : outcome (option box) :=
  map_widen (map get_bounds layers) None.

(** [b] lies inside [outer]. *)
Definition inside (b outer : box) : Prop :=
  let '(x0, y0, x1, y1) := b in
  let '(minx, miny, maxx, maxy) := outer in
  lt x0 minx = false /\ lt y0 miny = false /\ lt maxx x1 = false /\ lt maxy y1 = false.

End Bounds.

End MapLayer.

(** * Properties *)

Import DBSApi.

(** ** pathlib on a few inputs *)

Example as_posix_examples :
  map (fun s => pathlib.as_posix (pathlib.Path s))
      [""; "."; "/"; "//"; "///"; "a//b/./c/"; "//a/b"; "./a"; "a/.."; "/dbfs/mnt/external/tmp/"]
  = ["."; "."; "/"; "//"; "/"; "a/b/c"; "//a/b"; "a"; "a/.."; "/dbfs/mnt/external/tmp"].
Proof. vm_compute. reflexivity. Qed.

Example joinpath_anchored_argument :
  pathlib.as_posix (pathlib.joinpath (pathlib.Path "/Shared/runs/") "/Users/a")
  = "/Users/a".
Proof. reflexivity. Qed.

Example parent_examples :
  map (fun s => pathlib.as_posix (pathlib.parent (pathlib.Path s)))
      ["/x/y/z"; "/x"; "/"; "a"; ""]
  = ["/x/y"; "/"; "/"; "."; "."].
Proof. vm_compute. reflexivity. Qed.

Example strftime_example :
  strftime (mkDatetime 2024 1 15 9 30 0) = "20240115093000".
Proof. reflexivity. Qed.

(** ** Runs of [backup_notebook] *)

Section Backup.

Context {W : Type} {collab : Collaborators W}.

Lemma randint_0_1000 (s : state W) r w1 :
  random_draw (world s) = (r, w1) ->
  randint 0 1000 s
  = (Return (Z.of_N r mod 1001)%Z, mkState w1 (trace s ++ [Random_randint 0 1000])).
Proof.
  intros Hd. unfold randint, perform. simpl. rewrite Hd. reflexivity.
Qed.

Lemma randint_0_1000_range (r : N) : (0 <= Z.of_N r mod 1001 <= 1000)%Z.
Proof.
  pose proof (Z.mod_pos_bound (Z.of_N r) 1001). lia.
Qed.

(** What one call of [backup_notebook] does, from the answers of the world. *)
Lemma backup_notebook_run src tgt tmp (s : state W) r w1 r_exp w2 r_imp w3 r_unl w4 :
  let p := pathlib.as_posix (intermediate_location tmp (Z.of_N r mod 1001)) in
  random_draw (world s) = (r, w1) ->
  export_workspace src p "DBC" false w1 = (r_exp, w2) ->
  import_workspace p tgt "PYTHON" "DBC" false w2 = (r_imp, w3) ->
  unlink p w3 = (r_unl, w4) ->
  backup_notebook src tgt tmp s =
    match r_exp with
    | Raise e =>
        (Raise e,
         mkState w2 (trace s ++ [Random_randint 0 1000;
                                 Workspace_export src p "DBC" false]))
    | Return _ =>
        (match r_unl with Raise e => Raise e | Return _ => r_imp end,
         mkState w4 (trace s ++ [Random_randint 0 1000;
                                 Workspace_export src p "DBC" false;
                                 Workspace_import p tgt "PYTHON" "DBC" false;
                                 Path_unlink p]))
    end.
Proof.
  intros p Hd He Hi Hu.
  unfold backup_notebook, bind. rewrite (randint_0_1000 s r w1 Hd).
  unfold export_notebook, perform at 1. cbn [world trace]. fold p. rewrite He.
  destruct r_exp as [u|e].
  - unfold try_finally, import_notebook, path_unlink, perform. cbn [world trace].
    fold p. rewrite Hi. cbn [world trace]. rewrite Hu.
    rewrite <- !app_assoc. cbn [app].
    destruct r_unl; reflexivity.
  - rewrite <- !app_assoc. reflexivity.
Qed.

(** Every call of [backup_notebook] issues exactly one export and no
    [mkdirs], whatever the world answers. *)
Lemma backup_notebook_calls src tgt tmp (s : state W) :
  exists evs,
    trace (snd (backup_notebook src tgt tmp s)) = trace s ++ evs
    /\ count is_export evs = 1
    /\ count is_mkdirs evs = 0
    /\ count is_unlink evs <= 1.
Proof.
  destruct (random_draw (world s)) as [r w1] eqn:Hd.
  set (p := pathlib.as_posix (intermediate_location tmp (Z.of_N r mod 1001))).
  destruct (export_workspace src p "DBC" false w1) as [r_exp w2] eqn:He.
  destruct (import_workspace p tgt "PYTHON" "DBC" false w2) as [r_imp w3] eqn:Hi.
  destruct (unlink p w3) as [r_unl w4] eqn:Hu.
  rewrite (backup_notebook_run src tgt tmp s r w1 r_exp w2 r_imp w3 r_unl w4 Hd He Hi Hu).
  destruct r_exp; eexists; (split; [reflexivity|]); cbn; auto.
Qed.

End Backup.

(** C1 (amended). When the export step of [backup_notebook] succeeds,
    [Path.unlink] is called on the staging file exactly once, right after the
    import call, whether the import returns or raises. When the unlink
    returns, the outcome of [backup_notebook] is the outcome of the import, so
    an import error propagates to the caller after the cleanup; when the
    unlink itself raises, its exception is the one that propagates. *)
Theorem backup_notebook_cleanup {W : Type} {collab : Collaborators W}
    src tgt tmp (s : state W) r w1 u w2 r_imp w3 r_unl w4 :
  let p := pathlib.as_posix (intermediate_location tmp (Z.of_N r mod 1001)) in
  let evs := [Random_randint 0 1000;
              Workspace_export src p "DBC" false;
              Workspace_import p tgt "PYTHON" "DBC" false;
              Path_unlink p] in
  random_draw (world s) = (r, w1) ->
  export_workspace src p "DBC" false w1 = (Return u, w2) ->
  import_workspace p tgt "PYTHON" "DBC" false w2 = (r_imp, w3) ->
  unlink p w3 = (r_unl, w4) ->
  snd (backup_notebook src tgt tmp s) = mkState w4 (trace s ++ evs)
  /\ count is_unlink evs = 1
  /\ (forall v, r_unl = Return v -> fst (backup_notebook src tgt tmp s) = r_imp)
  /\ (forall e, r_unl = Raise e -> fst (backup_notebook src tgt tmp s) = Raise e).
Proof.
  intros p evs Hd He Hi Hu.
  rewrite (backup_notebook_run src tgt tmp s r w1 (Return u) w2 r_imp w3 r_unl w4 Hd He Hi Hu).
  cbn [fst snd]. repeat split.
  - intros v ->. reflexivity.
  - intros e ->. reflexivity.
Qed.

(** The import is refused, the staging file is removed, and the caller sees
    the import's error. *)
Lemma backup_notebook_cleanup_witness :
  let w := Script.set_imports Script.calm [Raise Script.forbidden] in
  backup_notebook "/a/b" "/c/d" default_tmp_dir (Script.start w)
  = (Raise Script.forbidden,
     mkState (Script.set_draws Script.calm [])
       [Random_randint 0 1000;
        Workspace_export "/a/b" "/dbfs/mnt/external/tmp/backup_5" "DBC" false;
        Workspace_import "/dbfs/mnt/external/tmp/backup_5" "/c/d" "PYTHON" "DBC" false;
        Path_unlink "/dbfs/mnt/external/tmp/backup_5"]).
Proof.
  intros w.
  destruct (backup_notebook_cleanup (collab := Script.collaborators) "/a/b" "/c/d" default_tmp_dir (Script.start w)
              5%N (Script.set_draws w []) tt (Script.set_draws w [])
              (Raise Script.forbidden) (Script.set_draws Script.calm []) (Return tt)
              (Script.set_draws Script.calm [])
              eq_refl eq_refl eq_refl eq_refl) as (Hs & _ & Hok & _).
  specialize (Hok tt eq_refl).
  destruct (backup_notebook "/a/b" "/c/d" default_tmp_dir (Script.start w)) as [out s'].
  cbn [fst snd] in Hs, Hok. rewrite Hs, Hok. reflexivity.
Defined.

(** C1 as stated fails: with the export done, the import refused and the
    unlink failing too, the caller receives the unlink's exception, not the
    import's. *)
Lemma backup_notebook_import_error_can_be_replaced :
  ~ (forall (W : Type) (collab : Collaborators W) src tgt tmp (s : state W)
            r w1 u w2 e w3,
       let p := pathlib.as_posix (intermediate_location tmp (Z.of_N r mod 1001)) in
       random_draw (world s) = (r, w1) ->
       export_workspace src p "DBC" false w1 = (Return u, w2) ->
       import_workspace p tgt "PYTHON" "DBC" false w2 = (Raise e, w3) ->
       fst (backup_notebook src tgt tmp s) = Raise e).
Proof.
  intros claim.
  pose (w := Script.set_unlinks
               (Script.set_imports Script.calm [Raise Script.forbidden])
               [Raise Script.os_error]).
  specialize (claim Script.world Script.collaborators "/a/b" "/c/d" default_tmp_dir
                (Script.start w) 5%N (Script.set_draws w []) tt (Script.set_draws w [])
                Script.forbidden
                (Script.set_imports (Script.set_draws w []) [])
                eq_refl eq_refl eq_refl).
  vm_compute in claim. discriminate claim.
Qed.

(** C2. When the export step of [backup_notebook] raises, the export's
    exception propagates to the caller and the only calls made are the random
    draw and the export itself: no import, and no unlink of the staging file. *)
Theorem backup_notebook_export_failure {W : Type} {collab : Collaborators W}
    src tgt tmp (s : state W) r w1 e w2 :
  let p := pathlib.as_posix (intermediate_location tmp (Z.of_N r mod 1001)) in
  let evs := [Random_randint 0 1000; Workspace_export src p "DBC" false] in
  random_draw (world s) = (r, w1) ->
  export_workspace src p "DBC" false w1 = (Raise e, w2) ->
  backup_notebook src tgt tmp s = (Raise e, mkState w2 (trace s ++ evs))
  /\ count is_unlink evs = 0
  /\ count is_import evs = 0.
Proof.
  intros p evs Hd He.
  destruct (import_workspace p tgt "PYTHON" "DBC" false w2) as [r_imp w3] eqn:Hi.
  destruct (unlink p w3) as [r_unl w4] eqn:Hu.
  rewrite (backup_notebook_run src tgt tmp s r w1 (Raise e) w2 r_imp w3 r_unl w4 Hd He Hi Hu).
  repeat split.
Qed.

Lemma backup_notebook_export_failure_witness :
  let w := Script.set_exports Script.calm [Raise Script.forbidden] in
  backup_notebook "/a/b" "/c/d" default_tmp_dir (Script.start w)
  = (Raise Script.forbidden,
     mkState (Script.set_draws Script.calm [])
       [Random_randint 0 1000;
        Workspace_export "/a/b" "/dbfs/mnt/external/tmp/backup_5" "DBC" false]).
Proof.
  intros w.
  exact (proj1 (backup_notebook_export_failure (collab := Script.collaborators) "/a/b" "/c/d" default_tmp_dir
                  (Script.start w) 5%N (Script.set_draws w []) Script.forbidden
                  (Script.set_draws Script.calm []) eq_refl eq_refl)).
Defined.

(** ** Runs of [export_current_notebook_run] *)

Section Orchestrator.

Context {W : Type} {collab : Collaborators W}.

(** The state in which the first transfer attempt starts. *)
Lemma export_current_notebook_run_start runs_dir (s : state W) cur w1 d w2 :
  get_notebook_path (world s) = (Return cur, w1) ->
  datetime_now w1 = (d, w2) ->
  let target_path := run_target_path runs_dir cur (strftime d) in
  let s1 := mkState w2 (trace s ++ [Ctx_get_notebook_path; Datetime_now]) in
  export_current_notebook_run runs_dir s =
    match backup_notebook cur (pathlib.as_posix target_path) default_tmp_dir s1 with
    | (Return a, s2) => (Return a, s2)
    | (Raise (HTTPError i m response), s2) =>
        on_http_error (HTTPError i m response) response cur target_path s2
    | (Raise e, s2) => (Raise e, s2)
    end.
Proof.
  intros Hp Hn target_path s1.
  unfold export_current_notebook_run, bind, now, perform at 1 2.
  rewrite Hp. cbn [world trace]. rewrite Hn. cbn [world trace].
  rewrite <- app_assoc. cbn [app]. fold target_path. fold s1.
  unfold try_except.
  destruct (backup_notebook cur (pathlib.as_posix target_path) default_tmp_dir s1)
    as [[a|e] s2]; [reflexivity|].
  destruct e; reflexivity.
Qed.

(** When the path of the current notebook cannot be read, nothing else is
    attempted. *)
Lemma export_current_notebook_run_no_context runs_dir (s : state W) e w1 :
  get_notebook_path (world s) = (Raise e, w1) ->
  export_current_notebook_run runs_dir s
  = (Raise e, mkState w1 (trace s ++ [Ctx_get_notebook_path])).
Proof.
  intros Hp. unfold export_current_notebook_run, bind, perform at 1.
  rewrite Hp. reflexivity.
Qed.

(** The handler of the [except] clause, from the error code it reads. *)
Lemma on_http_error_recover _e response cur target_path (s2 : state W) body code r_mk w3 :
  response_json response = Return body ->
  getitem body "error_code" = Return code ->
  eq_str code "RESOURCE_DOES_NOT_EXIST" = true ->
  let dir := pathlib.as_posix (pathlib.parent target_path) in
  mkdirs dir (world s2) = (r_mk, w3) ->
  let s3 := mkState w3 (trace s2 ++ [Workspace_mkdirs dir]) in
  on_http_error _e response cur target_path s2 =
    match r_mk with
    | Return _ => backup_notebook cur (pathlib.as_posix target_path) default_tmp_dir s3
    | Raise e => (Raise e, s3)
    end.
Proof.
  intros Hb Hc Heq dir Hm s3.
  unfold on_http_error, bind, lift. rewrite Hb, Hc, Heq.
  unfold mkdir, perform. fold dir. rewrite Hm. fold s3.
  destruct r_mk; reflexivity.
Qed.

Lemma on_http_error_reraise _e response cur target_path (s2 : state W) body code :
  response_json response = Return body ->
  getitem body "error_code" = Return code ->
  eq_str code "RESOURCE_DOES_NOT_EXIST" = false ->
  on_http_error _e response cur target_path s2 = (Raise _e, s2).
Proof.
  intros Hb Hc Heq. unfold on_http_error, bind, lift. rewrite Hb, Hc, Heq.
  reflexivity.
Qed.

(** Reading the error code may itself fail; then neither [mkdirs] nor a
    second transfer is called. *)
Lemma on_http_error_unreadable _e response cur target_path (s2 : state W) :
  (forall code, (exists body, response_json response = Return body
                              /\ getitem body "error_code" = Return code) -> False) ->
  exists e, on_http_error _e response cur target_path s2 = (Raise e, s2).
Proof.
  intros Hno. unfold on_http_error, bind, lift.
  destruct (response_json response) as [body|e] eqn:Hb; [|eauto].
  destruct (getitem body "error_code") as [code|e] eqn:Hc; [|eauto].
  exfalso. apply (Hno code). eauto.
Qed.

End Orchestrator.

Lemma pair_inv {A B : Type} (x : A * B) : exists a b, x = (a, b).
Proof.
  destruct x as [a b]. exists a, b. reflexivity.
Qed.

Lemma count_app (f : call -> bool) (a b : list call) :
  count f (a ++ b) = count f a + count f b.
Proof.
  unfold count. rewrite filter_app, length_app. reflexivity.
Qed.

Lemma eq_str_true (value : json) (literal : string) :
  eq_str value literal = true -> value = JStr literal.
Proof.
  destruct value; cbn; try discriminate.
  intros H. apply String.eqb_eq in H. now subst.
Qed.

(** C3. One invocation of [export_current_notebook_run] makes at most two
    transfer attempts (each attempt issues exactly one workspace export, so
    attempts are counted by exports). A second attempt is made only when the
    first one raised an [HTTPError] whose response carries the error code
    "RESOURCE_DOES_NOT_EXIST"; the invocation then ends with the second
    attempt, whose outcome, an error included, is the outcome of the
    invocation. *)
Theorem export_current_notebook_run_at_most_two_attempts
    {W : Type} {collab : Collaborators W} runs_dir (s : state W) :
  exists evs,
    trace (snd (export_current_notebook_run runs_dir s)) = trace s ++ evs
    /\ count is_export evs <= 2
    /\ (count is_export evs = 2 ->
        exists cur w1 d w2 i m response s2 body w3,
          let target := pathlib.as_posix (run_target_path runs_dir cur (strftime d)) in
          let s1 := mkState w2 (trace s ++ [Ctx_get_notebook_path; Datetime_now]) in
          let dir := pathlib.as_posix
                       (pathlib.parent (run_target_path runs_dir cur (strftime d))) in
          let s3 := mkState w3 (trace s2 ++ [Workspace_mkdirs dir]) in
          get_notebook_path (world s) = (Return cur, w1)
          /\ datetime_now w1 = (d, w2)
          /\ backup_notebook cur target default_tmp_dir s1
             = (Raise (HTTPError i m response), s2)
          /\ response_json response = Return body
          /\ getitem body "error_code" = Return (JStr "RESOURCE_DOES_NOT_EXIST")
          /\ export_current_notebook_run runs_dir s
             = backup_notebook cur target default_tmp_dir s3).
Proof.
  remember (export_current_notebook_run runs_dir s) as R eqn:HR.
  assert (Hskip : (exists evs, trace (snd R) = trace s ++ evs
                               /\ count is_export evs <= 1) ->
                  exists evs,
                    trace (snd R) = trace s ++ evs
                    /\ count is_export evs <= 2
                    /\ (count is_export evs = 2 ->
        exists cur w1 d w2 i m response s2 body w3,
          let target := pathlib.as_posix (run_target_path runs_dir cur (strftime d)) in
          let s1 := mkState w2 (trace s ++ [Ctx_get_notebook_path; Datetime_now]) in
          let dir := pathlib.as_posix
                       (pathlib.parent (run_target_path runs_dir cur (strftime d))) in
          let s3 := mkState w3 (trace s2 ++ [Workspace_mkdirs dir]) in
          get_notebook_path (world s) = (Return cur, w1)
          /\ datetime_now w1 = (d, w2)
          /\ backup_notebook cur target default_tmp_dir s1
             = (Raise (HTTPError i m response), s2)
          /\ response_json response = Return body
          /\ getitem body "error_code" = Return (JStr "RESOURCE_DOES_NOT_EXIST")
          /\ R = backup_notebook cur target default_tmp_dir s3)).
  { intros (evs & Ha & Hle). exists evs. repeat split; auto; lia. }
  destruct (pair_inv (get_notebook_path (world s))) as (rp & w1 & Hp).
  destruct rp as [cur|e].
  2:{ rewrite (export_current_notebook_run_no_context runs_dir s e w1 Hp) in HR.
      apply Hskip. subst R. eexists. split; [reflexivity|]. cbn. lia. }
  destruct (pair_inv (datetime_now w1)) as (d & w2 & Hn).
  rewrite (export_current_notebook_run_start runs_dir s cur w1 d w2 Hp Hn) in HR.
  set (tp := run_target_path runs_dir cur (strftime d)) in *.
  set (s1 := mkState w2 (trace s ++ [Ctx_get_notebook_path; Datetime_now])) in *.
  destruct (backup_notebook_calls cur (pathlib.as_posix tp) default_tmp_dir s1)
    as (evs1 & Ht1 & Hx1 & _).
  destruct (backup_notebook cur (pathlib.as_posix tp) default_tmp_dir s1)
    as [out s2] eqn:Hb.
  cbn [snd] in Ht1.
  assert (Hone : forall out' : result unit, exists evs,
               trace (snd (out', s2)) = trace s ++ evs
               /\ count is_export evs <= 1).
  { intros out'. cbn [snd].
    exists ([Ctx_get_notebook_path; Datetime_now] ++ evs1).
    rewrite Ht1. unfold s1. cbn [trace]. rewrite <- app_assoc.
    split; [reflexivity|]. rewrite count_app, Hx1. cbn. lia. }
  destruct out as [a|e].
  { apply Hskip. subst R. apply Hone. }
  destruct e as [i m response| | | | | | |];
    try (apply Hskip; subst R; apply Hone).
  destruct (response_json response) as [body|e'] eqn:Hj.
  2:{ apply Hskip. subst R. unfold on_http_error, bind, lift. rewrite Hj. apply Hone. }
  destruct (getitem body "error_code") as [code|e'] eqn:Hg.
  2:{ apply Hskip. subst R. unfold on_http_error, bind, lift. rewrite Hj, Hg.
      apply Hone. }
  destruct (eq_str code "RESOURCE_DOES_NOT_EXIST") eqn:He.
  2:{ apply Hskip. subst R.
      rewrite (on_http_error_reraise _ response cur tp s2 body code Hj Hg He).
      apply Hone. }
  apply eq_str_true in He as Hcode.
  destruct (pair_inv (mkdirs (pathlib.as_posix (pathlib.parent tp)) (world s2)))
    as (r_mk & w3 & Hm).
  rewrite (on_http_error_recover _ response cur tp s2 body code r_mk w3 Hj Hg He Hm) in HR.
  destruct r_mk as [u|e'].
  - set (s3 := mkState w3 (trace s2 ++ [Workspace_mkdirs (pathlib.as_posix (pathlib.parent tp))])) in *.
    destruct (backup_notebook_calls cur (pathlib.as_posix tp) default_tmp_dir s3)
      as (evs2 & Ht2 & Hx2 & _).
    exists ([Ctx_get_notebook_path; Datetime_now] ++ evs1
            ++ [Workspace_mkdirs (pathlib.as_posix (pathlib.parent tp))] ++ evs2).
    split.
    { rewrite HR, Ht2. unfold s3. cbn [trace]. rewrite Ht1. unfold s1. cbn [trace].
      rewrite <- !app_assoc. reflexivity. }
    rewrite !count_app, Hx1, Hx2. cbn. split; [lia|]. intros _.
    exists cur, w1, d, w2, i, m, response, s2, body, w3.
    cbn zeta. fold tp. fold s1. subst code. repeat split; auto.
  - apply Hskip. subst R.
    exists ([Ctx_get_notebook_path; Datetime_now] ++ evs1
            ++ [Workspace_mkdirs (pathlib.as_posix (pathlib.parent tp))]).
    cbn [snd trace]. rewrite Ht1. unfold s1. cbn [trace].
    rewrite <- !app_assoc. split; [reflexivity|].
    rewrite !count_app, Hx1. cbn. lia.
Qed.

Lemma eq_str_false (value : json) (literal : string) :
  value <> JStr literal -> eq_str value literal = false.
Proof.
  intros Hne. destruct (eq_str value literal) eqn:He; [|reflexivity].
  destruct (Hne (eq_str_true _ _ He)).
Qed.

(** C4. When the first transfer attempt of [export_current_notebook_run]
    raises an [HTTPError] whose error code is "RESOURCE_DOES_NOT_EXIST", the
    next call is [mkdirs] on the parent directory of the target path; the
    second transfer attempt starts only after that call has returned (and is
    not made when [mkdirs] itself raises). *)
Theorem export_current_notebook_run_mkdir_before_retry
    {W : Type} {collab : Collaborators W}
    runs_dir (s : state W) cur w1 d w2 i m response s2 body r_mk w3 :
  let target_path := run_target_path runs_dir cur (strftime d) in
  let target := pathlib.as_posix target_path in
  let s1 := mkState w2 (trace s ++ [Ctx_get_notebook_path; Datetime_now]) in
  let dir := pathlib.as_posix (pathlib.parent target_path) in
  let s3 := mkState w3 (trace s2 ++ [Workspace_mkdirs dir]) in
  get_notebook_path (world s) = (Return cur, w1) ->
  datetime_now w1 = (d, w2) ->
  backup_notebook cur target default_tmp_dir s1 = (Raise (HTTPError i m response), s2) ->
  response_json response = Return body ->
  getitem body "error_code" = Return (JStr "RESOURCE_DOES_NOT_EXIST") ->
  mkdirs dir (world s2) = (r_mk, w3) ->
  export_current_notebook_run runs_dir s
  = match r_mk with
    | Return _ => backup_notebook cur target default_tmp_dir s3
    | Raise e => (Raise e, s3)
    end
  /\ exists first second,
       trace (snd (export_current_notebook_run runs_dir s))
       = trace s ++ [Ctx_get_notebook_path; Datetime_now]
         ++ first ++ [Workspace_mkdirs dir] ++ second
       /\ count is_export first = 1
       /\ count is_mkdirs first = 0
       /\ count is_mkdirs second = 0
       /\ count is_export second = match r_mk with Return _ => 1 | Raise _ => 0 end.
Proof.
  intros target_path target s1 dir s3 Hp Hn Hb Hj Hg Hm.
  assert (Hrun : export_current_notebook_run runs_dir s
                 = match r_mk with
                   | Return _ => backup_notebook cur target default_tmp_dir s3
                   | Raise e => (Raise e, s3)
                   end).
  { rewrite (export_current_notebook_run_start runs_dir s cur w1 d w2 Hp Hn).
    fold target_path. fold target. fold s1. rewrite Hb.
    apply (on_http_error_recover _ response cur target_path s2 body
             (JStr "RESOURCE_DOES_NOT_EXIST") r_mk w3 Hj Hg eq_refl Hm). }
  split; [exact Hrun|].
  destruct (backup_notebook_calls cur target default_tmp_dir s1)
    as (first & Ht1 & Hx1 & Hm1 & _).
  rewrite Hb in Ht1. cbn [snd] in Ht1. unfold s1 in Ht1. cbn [trace] in Ht1.
  rewrite Hrun. destruct r_mk as [u|e].
  - destruct (backup_notebook_calls cur target default_tmp_dir s3)
      as (second & Ht2 & Hx2 & Hm2 & _).
    exists first, second. rewrite Ht2. unfold s3. cbn [trace]. rewrite Ht1.
    rewrite <- !app_assoc. auto.
  - exists first, []. cbn [snd]. unfold s3. cbn [trace]. rewrite Ht1.
    rewrite <- !app_assoc. auto.
Qed.

(** The target's parent does not exist yet: the import is refused with
    "RESOURCE_DOES_NOT_EXIST", the directory is created, and the transfer is
    made again. *)
Lemma export_current_notebook_run_mkdir_before_retry_witness :
  let w := Script.set_imports Script.calm [Raise Script.not_found] in
  trace (snd (export_current_notebook_run default_runs_dir (Script.start w)))
  = [Ctx_get_notebook_path; Datetime_now;
     Random_randint 0 1000;
     Workspace_export "/Users/a/nb" "/dbfs/mnt/external/tmp/backup_5" "DBC" false;
     Workspace_import "/dbfs/mnt/external/tmp/backup_5"
       "/Shared/runs/Users/a/nb/20240115093000" "PYTHON" "DBC" false;
     Path_unlink "/dbfs/mnt/external/tmp/backup_5";
     Workspace_mkdirs "/Shared/runs/Users/a/nb";
     Random_randint 0 1000;
     Workspace_export "/Users/a/nb" "/dbfs/mnt/external/tmp/backup_0" "DBC" false;
     Workspace_import "/dbfs/mnt/external/tmp/backup_0"
       "/Shared/runs/Users/a/nb/20240115093000" "PYTHON" "DBC" false;
     Path_unlink "/dbfs/mnt/external/tmp/backup_0"].
Proof.
  intros w.
  pose proof (export_current_notebook_run_mkdir_before_retry
                (collab := Script.collaborators)
                default_runs_dir (Script.start w) "/Users/a/nb" w Script.a_morning w
                1 "404 Client Error: Not Found"
                (Some (mkResponse (Some (JObj [("error_code", JStr "RESOURCE_DOES_NOT_EXIST");
                                               ("message", JStr "Path does not exist")]))))
                _ _ (Return tt) _
                eq_refl eq_refl eq_refl eq_refl eq_refl eq_refl) as [Hrun _].
  rewrite Hrun. reflexivity.
Defined.

(** C5. When the first transfer attempt of [export_current_notebook_run]
    raises an [HTTPError] whose error code is anything but
    "RESOURCE_DOES_NOT_EXIST", the invocation ends there: that very exception
    (same identity, message and response) is raised to the caller, [mkdirs]
    is never called and no second attempt is made. *)
Theorem export_current_notebook_run_other_error
    {W : Type} {collab : Collaborators W}
    runs_dir (s : state W) cur w1 d w2 i m response s2 body code :
  let target := pathlib.as_posix (run_target_path runs_dir cur (strftime d)) in
  let s1 := mkState w2 (trace s ++ [Ctx_get_notebook_path; Datetime_now]) in
  get_notebook_path (world s) = (Return cur, w1) ->
  datetime_now w1 = (d, w2) ->
  backup_notebook cur target default_tmp_dir s1 = (Raise (HTTPError i m response), s2) ->
  response_json response = Return body ->
  getitem body "error_code" = Return code ->
  code <> JStr "RESOURCE_DOES_NOT_EXIST" ->
  export_current_notebook_run runs_dir s = (Raise (HTTPError i m response), s2)
  /\ exists first,
       trace s2 = trace s ++ [Ctx_get_notebook_path; Datetime_now] ++ first
       /\ count is_mkdirs first = 0
       /\ count is_export first = 1.
Proof.
  intros target s1 Hp Hn Hb Hj Hg Hne.
  split.
  - rewrite (export_current_notebook_run_start runs_dir s cur w1 d w2 Hp Hn).
    fold target. fold s1. rewrite Hb.
    apply (on_http_error_reraise _ response cur _ s2 body code Hj Hg).
    apply eq_str_false, Hne.
  - destruct (backup_notebook_calls cur target default_tmp_dir s1)
      as (first & Ht1 & Hx1 & Hm1 & _).
    rewrite Hb in Ht1. cbn [snd] in Ht1. unfold s1 in Ht1. cbn [trace] in Ht1.
    exists first. rewrite Ht1, <- app_assoc. auto.
Qed.

(** The import is refused with "PERMISSION_DENIED": the caller gets that
    error and no directory is created. *)
Lemma export_current_notebook_run_other_error_witness :
  let w := Script.set_imports Script.calm [Raise Script.forbidden] in
  export_current_notebook_run default_runs_dir (Script.start w)
  = (Raise Script.forbidden,
     mkState (Script.set_draws Script.calm [])
       [Ctx_get_notebook_path; Datetime_now;
        Random_randint 0 1000;
        Workspace_export "/Users/a/nb" "/dbfs/mnt/external/tmp/backup_5" "DBC" false;
        Workspace_import "/dbfs/mnt/external/tmp/backup_5"
          "/Shared/runs/Users/a/nb/20240115093000" "PYTHON" "DBC" false;
        Path_unlink "/dbfs/mnt/external/tmp/backup_5"]).
Proof.
  intros w.
  refine (proj1 (export_current_notebook_run_other_error
                   (collab := Script.collaborators)
                   default_runs_dir (Script.start w) "/Users/a/nb" w Script.a_morning w
                   2 "403 Client Error: Forbidden" _ _
                   (JObj [("error_code", JStr "PERMISSION_DENIED");
                          ("message", JStr "No access")])
                   (JStr "PERMISSION_DENIED")
                   eq_refl eq_refl eq_refl eq_refl eq_refl _)).
  discriminate.
Defined.

(** ** Paths *)

Lemma plain_no_slash s : plain s = true -> no_slash s = true.
Proof.
  induction s as [|c s IH]; cbn; [reflexivity|].
  intros H. apply andb_true_iff in H as [H1 H2]. apply andb_true_iff in H1 as [H1 _].
  unfold pathlib.sep. rewrite H1, (IH H2). reflexivity.
Qed.

Lemma plain_is_name s : plain s = true -> s <> "" -> is_name s = true.
Proof.
  intros Hp Hne. unfold is_name. rewrite (plain_no_slash s Hp), andb_true_r.
  destruct s as [|c s]; [congruence|].
  cbn in Hp. apply andb_true_iff in Hp as [H1 _]. apply andb_true_iff in H1 as [_ Hdot].
  unfold pathlib.keep_name. cbn.
  destruct (Ascii.eqb c "."); [discriminate|]. reflexivity.
Qed.

Lemma plain_app a b : plain a = true -> plain b = true -> plain (a ++ b) = true.
Proof.
  induction a as [|c a IH]; cbn; [auto|].
  intros H Hb. apply andb_true_iff in H as [H1 H2].
  rewrite H1, (IH H2 Hb). reflexivity.
Qed.

Lemma plain_uint d : plain (NilEmpty.string_of_uint d) = true.
Proof.
  induction d; cbn; auto.
Qed.

Lemma plain_str_int n : plain (str_int n) = true.
Proof.
  unfold str_int. destruct (Z.to_int n) as [d|d]; cbn;
    destruct d; cbn; auto using plain_uint.
Qed.

Lemma str_int_not_empty n : str_int n <> "".
Proof.
  unfold str_int. destruct (Z.to_int n) as [d|d]; cbn; [|discriminate].
  destruct d; discriminate.
Qed.

Lemma plain_zero_pad width n : plain (zero_pad width n) = true.
Proof.
  unfold zero_pad. apply plain_app; [|apply plain_str_int].
  induction (width - String.length (str_int n)) as [|k IH]; [reflexivity|].
  cbn [repeat String.concat]. destruct (repeat "0" k); [reflexivity|].
  cbn. exact IH.
Qed.

Lemma append_not_empty_r a b : b <> "" -> (a ++ b)%string <> "".
Proof.
  intros Hb. destruct a; cbn; [exact Hb|discriminate].
Qed.

Lemma zero_pad_not_empty width n : zero_pad width n <> "".
Proof.
  unfold zero_pad. apply append_not_empty_r, str_int_not_empty.
Qed.

(** A timestamp is always one clean path component. *)
Lemma strftime_is_name d : is_name (strftime d) = true.
Proof.
  apply plain_is_name.
  - unfold strftime. repeat (apply plain_app; [apply plain_zero_pad|]).
    apply plain_zero_pad.
  - unfold strftime. do 5 apply append_not_empty_r. apply zero_pad_not_empty.
Qed.

Lemma backup_name_is_name n : is_name ("backup_" ++ str_int n) = true.
Proof.
  apply plain_is_name; [|discriminate].
  apply (plain_app "backup_"); [reflexivity|apply plain_str_int].
Qed.

Lemma split_no_slash s : no_slash s = true -> pathlib.split s = [s].
Proof.
  induction s as [|c s IH]; [reflexivity|].
  cbn. intros H. apply andb_true_iff in H as [H1 H2].
  apply negb_true_iff in H1. unfold pathlib.sep in H1 |- *. rewrite H1, (IH H2).
  reflexivity.
Qed.

Lemma parse_name s : is_name s = true -> pathlib.parse s = pathlib.mkPath "" [s].
Proof.
  unfold is_name. intros H. apply andb_true_iff in H as [Hk Hs].
  unfold pathlib.parse.
  assert (Hroot : pathlib.splitroot s = ("", s)).
  { destruct s as [|c s]; [reflexivity|]. cbn in Hs |- *.
    apply andb_true_iff in Hs as [H1 _]. apply negb_true_iff in H1.
    unfold pathlib.sep in H1 |- *. rewrite H1. reflexivity. }
  rewrite Hroot, (split_no_slash s Hs). cbn. rewrite Hk. reflexivity.
Qed.

Lemma joinpath_name p x :
  is_name x = true ->
  pathlib.joinpath p x = pathlib.mkPath (pathlib.root p) (pathlib.names p ++ [x]).
Proof.
  intros Hx. unfold pathlib.joinpath. rewrite (parse_name x Hx). reflexivity.
Qed.

Lemma parent_joinpath_name p x :
  is_name x = true -> pathlib.parent (pathlib.joinpath p x) = p.
Proof.
  intros Hx. rewrite (joinpath_name p x Hx). unfold pathlib.parent. cbn.
  destruct (pathlib.names p ++ [x]) eqn:Hl.
  - destruct (app_cons_not_nil _ _ _ (eq_sym Hl)).
  - rewrite <- Hl, removelast_last. destruct p; reflexivity.
Qed.

Lemma name_joinpath_name p x :
  is_name x = true -> pathlib.name (pathlib.joinpath p x) = x.
Proof.
  intros Hx. rewrite (joinpath_name p x Hx). unfold pathlib.name. cbn.
  apply last_last.
Qed.

Lemma string_app_assoc (a b c : string) : ((a ++ b) ++ c)%string = (a ++ (b ++ c))%string.
Proof.
  induction a as [|x a IH]; cbn; [reflexivity|]. now rewrite IH.
Qed.

Lemma join_snoc l x :
  l <> [] -> pathlib.join (l ++ [x]) = (pathlib.join l ++ String pathlib.sep x)%string.
Proof.
  induction l as [|a l IH]; [congruence|]. intros _.
  destruct l as [|b l].
  - reflexivity.
  - change (pathlib.join ((a :: b :: l) ++ [x]))
      with (a ++ String pathlib.sep (pathlib.join ((b :: l) ++ [x])))%string.
    rewrite IH by discriminate.
    change (pathlib.join (a :: b :: l))
      with (a ++ String pathlib.sep (pathlib.join (b :: l)))%string.
    rewrite string_app_assoc. reflexivity.
Qed.

(** For a staging directory that is written in normal form and is not a bare
    anchor, joining a component is appending ["/"] and the component. *)
Lemma as_posix_joinpath_normal dir x :
  is_name x = true ->
  pathlib.as_posix (pathlib.Path dir) = dir ->
  pathlib.names (pathlib.Path dir) <> [] ->
  pathlib.as_posix (pathlib.joinpath (pathlib.Path dir) x) = (dir ++ "/" ++ x)%string.
Proof.
  intros Hx Hnorm Hne. rewrite (joinpath_name _ x Hx).
  unfold pathlib.as_posix in *. cbn [pathlib.root pathlib.names] in *.
  rewrite (join_snoc _ x Hne), <- string_app_assoc.
  destruct (String.eqb_spec
              (pathlib.root (pathlib.Path dir) ++ pathlib.join (pathlib.names (pathlib.Path dir)))
              "") as [Hempty|_].
  - subst dir. destruct (Hne eq_refl).
  - rewrite Hnorm.
    destruct (String.eqb_spec (dir ++ String pathlib.sep x) "") as [Habs|_]; [|reflexivity].
    destruct (append_not_empty_r dir (String pathlib.sep x)); [discriminate|exact Habs].
Qed.

(** C7. Every call of [backup_notebook] stages to the path made of the
    directory [tmp_dir] and the file name [backup_n], where [n] is the number
    it has just drawn with [randint(0, 1000)], so that [0 <= n <= 1000]: the
    export, made right after the draw with no look at the file system in
    between, goes to that path; its parent is the path [tmp_dir], its name is
    ["backup_" ++ n], as a string it is [tmp_dir/backup_n] when [tmp_dir] is
    written in normal form, and [/dbfs/mnt/external/tmp/backup_n] for the
    default staging directory. Every name from [backup_0] to [backup_1000] is
    used by some call: when the generator draws [m], the backup exports to,
    imports from and unlinks [tmp_dir/backup_m]. *)
Theorem backup_notebook_intermediate_path {W : Type} {collab : Collaborators W}
    src tgt tmp_dir (s : state W) :
  (let n := (Z.of_N (fst (random_draw (world s))) mod 1001)%Z in
   let location := intermediate_location tmp_dir n in
   (0 <= n <= 1000)%Z
   /\ (exists rest,
         trace (snd (backup_notebook src tgt tmp_dir s))
         = trace s ++ [Random_randint 0 1000;
                       Workspace_export src (pathlib.as_posix location) "DBC" false]
                   ++ rest)
   /\ pathlib.parent location = pathlib.Path tmp_dir
   /\ pathlib.name location = ("backup_" ++ str_int n)%string
   /\ (pathlib.as_posix (pathlib.Path tmp_dir) = tmp_dir ->
       pathlib.names (pathlib.Path tmp_dir) <> [] ->
       pathlib.as_posix location = (tmp_dir ++ "/" ++ "backup_" ++ str_int n)%string)
   /\ (tmp_dir = default_tmp_dir ->
       pathlib.as_posix location
       = ("/dbfs/mnt/external/tmp" ++ "/" ++ "backup_" ++ str_int n)%string))
  /\ (forall m : Z, (0 <= m <= 1000)%Z ->
        let p := pathlib.as_posix (intermediate_location tmp_dir m) in
        trace (snd (backup_notebook src tgt tmp_dir
                      (Script.start (Script.set_draws Script.calm [Z.to_N m]))))
        = [Random_randint 0 1000;
           Workspace_export src p "DBC" false;
           Workspace_import p tgt "PYTHON" "DBC" false;
           Path_unlink p]).
Proof.
  split.
  - destruct (pair_inv (random_draw (world s))) as (r & w1 & Hd).
    rewrite Hd. cbn [fst]. set (n := (Z.of_N r mod 1001)%Z).
    unfold intermediate_location.
    pose proof (backup_name_is_name n) as Hname.
    split; [apply randint_0_1000_range|].
    split; [|split; [|split; [|split]]].
    + set (p := pathlib.as_posix (intermediate_location tmp_dir n)).
      destruct (pair_inv (export_workspace src p "DBC" false w1)) as (r_exp & w2 & He).
      destruct (pair_inv (import_workspace p tgt "PYTHON" "DBC" false w2)) as (r_imp & w3 & Hi).
      destruct (pair_inv (unlink p w3)) as (r_unl & w4 & Hu).
      rewrite (backup_notebook_run src tgt tmp_dir s r w1 r_exp w2 r_imp w3 r_unl w4 Hd He Hi Hu).
      fold n. fold p.
      destruct r_exp; cbn [snd trace]; [eexists [_; _]|exists []]; reflexivity.
    + apply parent_joinpath_name, Hname.
    + apply name_joinpath_name, Hname.
    + intros Hnorm Hne. apply as_posix_joinpath_normal; assumption.
    + intros ->. rewrite (joinpath_name _ _ Hname). reflexivity.
  - intros m Hm p.
    assert (Hdraw : (Z.of_N (Z.to_N m) mod 1001)%Z = m).
    { rewrite Z2N.id by lia. apply Z.mod_small. lia. }
    set (w := Script.set_draws Script.calm [Z.to_N m]).
    rewrite (backup_notebook_run (collab := Script.collaborators) src tgt tmp_dir
               (Script.start w) (Z.to_N m) (Script.set_draws w [])
               (Return tt) (Script.set_draws w [])
               (Return tt) (Script.set_draws w [])
               (Return tt) (Script.set_draws w [])
               eq_refl eq_refl eq_refl eq_refl).
    rewrite Hdraw. reflexivity.
Qed.

(** ** The target of a run snapshot *)

Lemma on_http_error_extends {W : Type} {collab : Collaborators W}
    _e response cur target_path (s2 : state W) :
  exists evs,
    trace (snd (on_http_error _e response cur target_path s2)) = trace s2 ++ evs.
Proof.
  unfold on_http_error, bind, lift.
  destruct (response_json response) as [body|e]; [|exists []; cbn; now rewrite app_nil_r].
  destruct (getitem body "error_code") as [code|e];
    [|exists []; cbn; now rewrite app_nil_r].
  destruct (eq_str code "RESOURCE_DOES_NOT_EXIST");
    [|exists []; cbn; now rewrite app_nil_r].
  unfold mkdir, perform.
  destruct (mkdirs _ (world s2)) as [[u|e] w3].
  - match goal with
    | |- context [backup_notebook ?a ?b ?c ?st] =>
        destruct (backup_notebook_calls a b c st) as (evs & Ht & _)
    end.
    rewrite Ht. cbn [trace]. rewrite <- app_assoc. eauto.
  - cbn [snd trace]. eauto.
Qed.

Lemma relative_path_parse rest :
  pathlib.is_absolute (pathlib.Path rest) = false ->
  pathlib.root (pathlib.parse rest) = "".
Proof.
  unfold pathlib.is_absolute, pathlib.Path. intros H.
  apply negb_false_iff, String.eqb_eq in H. exact H.
Qed.

(** C6. [export_current_notebook_run] imports to the target path
    [runs_dir / current_path[1:] / timestamp]: with the current notebook at
    ["/" ++ rest], the import of the first transfer goes to the path obtained
    by joining [rest], then the timestamp, to [runs_dir]; when [rest] is a
    relative path its components follow those of [runs_dir] and the
    timestamp comes last. For [/Users/a/nb], [/Shared/runs/] and
    15 January 2024 09:30:00 (timestamp 20240115093000) the target is
    [/Shared/runs/Users/a/nb/20240115093000]. *)
Theorem export_current_notebook_run_target_path {W : Type} {collab : Collaborators W}
    runs_dir (s : state W) rest w1 d w2 r w3 u w4 :
  let current_path := String "/" rest in
  let timestamp := strftime d in
  let target_path :=
    pathlib.joinpath (pathlib.joinpath (pathlib.Path runs_dir) rest) timestamp in
  let p := pathlib.as_posix (intermediate_location default_tmp_dir (Z.of_N r mod 1001)) in
  get_notebook_path (world s) = (Return current_path, w1) ->
  datetime_now w1 = (d, w2) ->
  random_draw w2 = (r, w3) ->
  export_workspace current_path p "DBC" false w3 = (Return u, w4) ->
  (exists later,
     trace (snd (export_current_notebook_run runs_dir s))
     = trace s ++ [Ctx_get_notebook_path; Datetime_now; Random_randint 0 1000;
                   Workspace_export current_path p "DBC" false;
                   Workspace_import p (pathlib.as_posix target_path) "PYTHON" "DBC" false;
                   Path_unlink p] ++ later)
  /\ (pathlib.is_absolute (pathlib.Path rest) = false ->
      pathlib.root target_path = pathlib.root (pathlib.Path runs_dir)
      /\ pathlib.names target_path
         = pathlib.names (pathlib.Path runs_dir) ++ pathlib.names (pathlib.Path rest)
           ++ [timestamp])
  /\ strftime (mkDatetime 2024 1 15 9 30 0) = "20240115093000"
  /\ pathlib.as_posix (run_target_path "/Shared/runs/" "/Users/a/nb" "20240115093000")
     = "/Shared/runs/Users/a/nb/20240115093000".
Proof.
  intros current_path timestamp target_path p Hp Hn Hd He.
  split; [|split; [|split; reflexivity]].
  - rewrite (export_current_notebook_run_start runs_dir s current_path w1 d w2 Hp Hn).
    change (run_target_path runs_dir current_path (strftime d)) with target_path.
    set (s1 := mkState w2 (trace s ++ [Ctx_get_notebook_path; Datetime_now])).
    destruct (pair_inv (import_workspace p (pathlib.as_posix target_path)
                          "PYTHON" "DBC" false w4)) as (r_imp & w5 & Hi).
    destruct (pair_inv (unlink p w5)) as (r_unl & w6 & Hu).
    rewrite (backup_notebook_run current_path (pathlib.as_posix target_path)
               default_tmp_dir s1 r w3 (Return u) w4 r_imp w5 r_unl w6 Hd He Hi Hu).
    fold p. unfold s1. cbn [trace]. rewrite <- app_assoc. cbn [app].
    destruct (match r_unl with Raise e => Raise e | Return _ => r_imp end) as [a|e].
    + exists []. cbn [snd trace app]. reflexivity.
    + destruct e; try (exists []; cbn [snd trace app]; reflexivity).
      match goal with
      | |- context [on_http_error ?e ?resp ?c ?t ?st] =>
          destruct (on_http_error_extends e resp c t st) as (later & Hl)
      end.
      exists later. rewrite Hl. cbn [trace]. rewrite <- app_assoc. reflexivity.
  - intros Hrel. unfold target_path.
    rewrite (joinpath_name _ timestamp (strftime_is_name d)).
    cbn [pathlib.root pathlib.names]. unfold pathlib.joinpath.
    rewrite (relative_path_parse rest Hrel). cbn.
    rewrite <- app_assoc. split; reflexivity.
Qed.

Lemma export_current_notebook_run_target_path_witness :
  exists later,
    trace (snd (export_current_notebook_run "/Shared/runs/" (Script.start Script.calm)))
    = [Ctx_get_notebook_path; Datetime_now; Random_randint 0 1000;
       Workspace_export "/Users/a/nb" "/dbfs/mnt/external/tmp/backup_5" "DBC" false;
       Workspace_import "/dbfs/mnt/external/tmp/backup_5"
         "/Shared/runs/Users/a/nb/20240115093000" "PYTHON" "DBC" false;
       Path_unlink "/dbfs/mnt/external/tmp/backup_5"] ++ later.
Proof.
  exact (proj1 (export_current_notebook_run_target_path
                  (collab := Script.collaborators)
                  "/Shared/runs/" (Script.start Script.calm) "Users/a/nb"
                  Script.calm Script.a_morning Script.calm 5%N
                  (Script.set_draws Script.calm []) tt (Script.set_draws Script.calm [])
                  eq_refl eq_refl eq_refl eq_refl)).
Defined.

(** ** Runs of [create_job] *)

Section CreateJob.

Context {W : Type} {collab : Collaborators W}.

Lemma create_job_run notebook_path job_name cluster_name cluster_id email
    (s : state W) c s1 resolved s2 r_job w3 :
  let sent :=
    mkJobSettings
      (match if_truthy job_name with Some name => name | None => notebook_path end)
      c resolved [email] [email] in
  select_cluster cluster_name cluster_id s = (Return c, s1) ->
  resolve_notebook_path notebook_path s1 = (Return resolved, s2) ->
  jobs_create_job sent (world s2) = (r_job, w3) ->
  create_job notebook_path job_name cluster_name cluster_id email s
  = (match r_job with
     | Return jobdata =>
         match getitem jobdata "job_id" with
         | Return id => Return (mkDBJob id)
         | Raise e => Raise e
         end
     | Raise e => Raise e
     end,
     mkState w3 (trace s2 ++ [Jobs_create_job sent])).
Proof.
  intros sent Hc Hr Hj. unfold create_job, bind. rewrite Hc, Hr.
  unfold perform. fold sent. rewrite Hj. destruct r_job as [jobdata|e]; [|reflexivity].
  unfold lift, ret. destruct (getitem jobdata "job_id"); reflexivity.
Qed.

Lemma resolve_relative notebook_path (s1 : state W) cur w2 :
  pathlib.is_absolute (pathlib.Path notebook_path) = false ->
  get_notebook_path (world s1) = (Return cur, w2) ->
  resolve_notebook_path notebook_path s1
  = (Return (pathlib.as_posix
               (pathlib.joinpath (pathlib.parent (pathlib.Path cur)) notebook_path)),
     mkState w2 (trace s1 ++ [Ctx_get_notebook_path])).
Proof.
  intros Hrel Hp. unfold resolve_notebook_path. rewrite Hrel. cbn [negb].
  unfold bind, perform. rewrite Hp. reflexivity.
Qed.

Lemma resolve_absolute notebook_path (s1 : state W) :
  pathlib.is_absolute (pathlib.Path notebook_path) = true ->
  resolve_notebook_path notebook_path s1 = (Return notebook_path, s1).
Proof.
  intros Habs. unfold resolve_notebook_path. rewrite Habs. reflexivity.
Qed.

End CreateJob.

Lemma starts_with_slash_absolute s :
  pathlib.is_absolute (pathlib.Path (String "/" s)) = true.
Proof.
  unfold pathlib.is_absolute, pathlib.Path, pathlib.parse, pathlib.splitroot.
  change (Ascii.eqb "/" pathlib.sep) with true. cbv iota.
  destruct (Nat.eqb _ 2); reflexivity.
Qed.

Lemma parse_root_cases s :
  pathlib.root (pathlib.parse s) = ""
  \/ exists t, pathlib.root (pathlib.parse s) = String "/" t.
Proof.
  unfold pathlib.parse, pathlib.splitroot.
  destruct s as [|c s]; [left; reflexivity|].
  destruct (Ascii.eqb c pathlib.sep); [|left; reflexivity].
  destruct (Nat.eqb _ 2); right; eexists; reflexivity.
Qed.

(** Resolving a relative path against an absolute notebook path gives an
    absolute path. *)
Lemma resolved_is_absolute cur notebook_path :
  pathlib.is_absolute (pathlib.Path cur) = true ->
  pathlib.is_absolute (pathlib.Path notebook_path) = false ->
  pathlib.is_absolute
    (pathlib.Path
       (pathlib.as_posix
          (pathlib.joinpath (pathlib.parent (pathlib.Path cur)) notebook_path)))
  = true.
Proof.
  intros Habs Hrel.
  unfold pathlib.joinpath. rewrite (relative_path_parse notebook_path Hrel). cbn [String.eqb].
  assert (Hroot : pathlib.root (pathlib.parent (pathlib.Path cur))
                  = pathlib.root (pathlib.Path cur)).
  { unfold pathlib.parent. destruct (pathlib.names (pathlib.Path cur)); reflexivity. }
  rewrite Hroot. unfold pathlib.as_posix. cbn [pathlib.root pathlib.names].
  destruct (parse_root_cases cur) as [Hempty|[t Ht]].
  - unfold pathlib.is_absolute, pathlib.Path in Habs. rewrite Hempty in Habs. discriminate.
  - change (pathlib.Path cur) with (pathlib.parse cur). rewrite Ht.
    cbn [String.append String.eqb]. apply starts_with_slash_absolute.
Qed.

(** What [create_job] sends once the cluster is chosen. *)
Lemma create_job_sends {W : Type} {collab : Collaborators W}
    notebook_path job_name cluster_name cluster_id email (s : state W) c s1 :
  select_cluster cluster_name cluster_id s = (Return c, s1) ->
  (pathlib.is_absolute (pathlib.Path notebook_path) = false ->
   forall cur w2,
     get_notebook_path (world s1) = (Return cur, w2) ->
     trace (snd (create_job notebook_path job_name cluster_name cluster_id email s))
     = trace s1 ++ [Ctx_get_notebook_path;
                    Jobs_create_job
                      (mkJobSettings
                         (match if_truthy job_name with
                          | Some name => name
                          | None => notebook_path
                          end)
                         c
                         (pathlib.as_posix
                            (pathlib.joinpath (pathlib.parent (pathlib.Path cur))
                               notebook_path))
                         [email] [email])])
  /\ (pathlib.is_absolute (pathlib.Path notebook_path) = true ->
      trace (snd (create_job notebook_path job_name cluster_name cluster_id email s))
      = trace s1 ++ [Jobs_create_job
                       (mkJobSettings
                          (match if_truthy job_name with
                           | Some name => name
                           | None => notebook_path
                           end)
                          c notebook_path [email] [email])]).
Proof.
  intros Hc. split.
  - intros Hrel cur w2 Hp.
    pose proof (resolve_relative notebook_path s1 cur w2 Hrel Hp) as Hr.
    match type of Hr with
    | _ = (Return ?res, _) => set (resolved := res) in *
    end.
    destruct (pair_inv (jobs_create_job
                          (mkJobSettings
                             (match if_truthy job_name with
                              | Some name => name
                              | None => notebook_path
                              end) c resolved [email] [email]) w2))
      as (r_job & w3 & Hj).
    rewrite (create_job_run notebook_path job_name cluster_name cluster_id email
               s c s1 resolved _ r_job w3 Hc Hr Hj).
    cbn [snd trace]. rewrite <- app_assoc. reflexivity.
  - intros Habs.
    pose proof (resolve_absolute notebook_path s1 Habs) as Hr.
    destruct (pair_inv (jobs_create_job
                          (mkJobSettings
                             (match if_truthy job_name with
                              | Some name => name
                              | None => notebook_path
                              end) c notebook_path [email] [email])
                          (world s1))) as (r_job & w3 & Hj).
    rewrite (create_job_run notebook_path job_name cluster_name cluster_id email
               s c s1 notebook_path _ r_job w3 Hc Hr Hj).
    reflexivity.
Qed.

(** C8. [create_job] called with a non-empty [cluster_name] and a
    [cluster_id] (empty or not) fails its assertion: an [AssertionError] is
    raised and the state is the one the call started in, so nothing was asked
    of the remote API, nor of any other collaborator. *)
Theorem create_job_rejects_cluster_name_with_cluster_id
    {W : Type} {collab : Collaborators W}
    notebook_path job_name name id email (s : state W) :
  name <> "" ->
  create_job notebook_path job_name (Some name) (Some id) email s
  = (Raise AssertionError, s)
  /\ filter is_remote (trace (snd (create_job notebook_path job_name (Some name)
                                     (Some id) email s)))
     = filter is_remote (trace s).
Proof.
  intros Hne.
  assert (Hrun : create_job notebook_path job_name (Some name) (Some id) email s
                 = (Raise AssertionError, s)).
  { unfold create_job, bind, select_cluster. cbn [if_truthy].
    apply String.eqb_neq in Hne. rewrite Hne. reflexivity. }
  rewrite Hrun. split; reflexivity.
Qed.

Lemma create_job_rejects_cluster_name_with_cluster_id_witness :
  create_job "/Users/a/nb" None (Some "shared-cluster") (Some "0115-093000-abc123") None
    (Script.start Script.calm)
  = (Raise AssertionError, Script.start Script.calm).
Proof.
  refine (proj1 (create_job_rejects_cluster_name_with_cluster_id
                   (collab := Script.collaborators)
                   "/Users/a/nb" None "shared-cluster" "0115-093000-abc123" None
                   (Script.start Script.calm) _)).
  discriminate.
Defined.

(** C9. Once the cluster is chosen, [create_job] with a relative
    [notebook_path] reads the current notebook path and sends, as the job's
    notebook path, [notebook_path] joined to the parent directory of the
    current notebook path; with an absolute [notebook_path] it sends the
    string unchanged and does not read the current path. [foo/bar] against
    [/x/y/z] is [/x/y/foo/bar]. *)
Theorem create_job_resolves_notebook_path {W : Type} {collab : Collaborators W}
    notebook_path job_name cluster_name cluster_id email (s : state W) c s1 :
  let name :=
    match if_truthy job_name with Some name => name | None => notebook_path end in
  select_cluster cluster_name cluster_id s = (Return c, s1) ->
  (pathlib.is_absolute (pathlib.Path notebook_path) = false ->
   forall cur w2,
     get_notebook_path (world s1) = (Return cur, w2) ->
     let resolved :=
       pathlib.as_posix
         (pathlib.joinpath (pathlib.parent (pathlib.Path cur)) notebook_path) in
     trace (snd (create_job notebook_path job_name cluster_name cluster_id email s))
     = trace s1 ++ [Ctx_get_notebook_path;
                    Jobs_create_job (mkJobSettings name c resolved [email] [email])])
  /\ (pathlib.is_absolute (pathlib.Path notebook_path) = true ->
      trace (snd (create_job notebook_path job_name cluster_name cluster_id email s))
      = trace s1 ++ [Jobs_create_job (mkJobSettings name c notebook_path [email] [email])])
  /\ pathlib.as_posix
       (pathlib.joinpath (pathlib.parent (pathlib.Path "/x/y/z")) "foo/bar")
     = "/x/y/foo/bar".
Proof.
  intros name Hc.
  destruct (create_job_sends notebook_path job_name cluster_name
              cluster_id email s c s1 Hc) as (Hrel & Habs).
  split; [|split; [exact Habs|reflexivity]].
  intros Hr cur w2 Hp resolved. exact (Hrel Hr cur w2 Hp).
Qed.

Lemma create_job_resolves_notebook_path_witness :
  let w := Script.set_notebook_path Script.calm (Return "/x/y/z") in
  trace (snd (create_job "foo/bar" (Some "nightly") None (Some "0115-093000-abc123") None
                (Script.start w)))
  = [Ctx_get_notebook_path;
     Jobs_create_job
       (mkJobSettings "nightly" "0115-093000-abc123" "/x/y/foo/bar" [None] [None])].
Proof.
  intros w.
  exact (proj1 (create_job_resolves_notebook_path
                  (collab := Script.collaborators)
                  "foo/bar" (Some "nightly") None (Some "0115-093000-abc123") None
                  (Script.start w) "0115-093000-abc123" (Script.start w) eq_refl)
           eq_refl "/x/y/z" w eq_refl).
Defined.

(** C10. Without a [job_name] ([None] or the empty string) the job is
    named by [notebook_path] exactly as the caller passed it. For a relative
    [notebook_path] the settings sent carry that relative string as the name
    and the resolved path as the notebook path, which is absolute, and so a
    different string, whenever the current notebook path is absolute. *)
Theorem create_job_default_name_is_unresolved_path
    {W : Type} {collab : Collaborators W}
    notebook_path job_name cluster_name cluster_id email (s : state W) c s1 :
  if_truthy job_name = None ->
  select_cluster cluster_name cluster_id s = (Return c, s1) ->
  (pathlib.is_absolute (pathlib.Path notebook_path) = false ->
   forall cur w2,
     get_notebook_path (world s1) = (Return cur, w2) ->
     let resolved :=
       pathlib.as_posix
         (pathlib.joinpath (pathlib.parent (pathlib.Path cur)) notebook_path) in
     trace (snd (create_job notebook_path job_name cluster_name cluster_id email s))
     = trace s1 ++ [Ctx_get_notebook_path;
                    Jobs_create_job
                      (mkJobSettings notebook_path c resolved [email] [email])]
     /\ (pathlib.is_absolute (pathlib.Path cur) = true ->
         pathlib.is_absolute (pathlib.Path resolved) = true
         /\ resolved <> notebook_path))
  /\ (pathlib.is_absolute (pathlib.Path notebook_path) = true ->
      trace (snd (create_job notebook_path job_name cluster_name cluster_id email s))
      = trace s1 ++ [Jobs_create_job
                       (mkJobSettings notebook_path c notebook_path [email] [email])]).
Proof.
  intros Hname Hc.
  destruct (create_job_sends notebook_path job_name cluster_name
              cluster_id email s c s1 Hc) as (Hrel & Habs).
  rewrite Hname in Hrel, Habs. split; [|exact Habs].
  intros Hr cur w2 Hp resolved. split; [exact (Hrel Hr cur w2 Hp)|].
  intros Hcur. pose proof (resolved_is_absolute cur notebook_path Hcur Hr) as Hres.
  fold resolved in Hres. split; [exact Hres|].
  intros Heq. rewrite Heq in Hres. rewrite Hr in Hres. discriminate.
Qed.

Lemma create_job_default_name_is_unresolved_path_witness :
  let w := Script.set_notebook_path Script.calm (Return "/x/y/z") in
  trace (snd (create_job "foo/bar" None None None (Some "ops@example.org")
                (Script.start w)))
  = [Ctx_get_notebook_cluster_id; Ctx_get_notebook_path;
     Jobs_create_job
       (mkJobSettings "foo/bar" "0115-093000-abc123" "/x/y/foo/bar"
          [Some "ops@example.org"] [Some "ops@example.org"])].
Proof.
  intros w.
  exact (proj1 (proj1 (create_job_default_name_is_unresolved_path
                         (collab := Script.collaborators)
                         "foo/bar" None None None (Some "ops@example.org")
                         (Script.start w) "0115-093000-abc123"
                         (mkState w [Ctx_get_notebook_cluster_id]) eq_refl eq_refl)
                  eq_refl "/x/y/z" w eq_refl)).
Defined.

(** * Further properties of the module *)

(** ** What the calls of a run look like *)

(** A property of calls that holds of everything [backup_notebook] can issue
    holds of every call it makes. *)
Lemma backup_notebook_events {W : Type} {collab : Collaborators W}
    (P : call -> bool) src tgt tmp (s : state W) :
  P (Random_randint 0 1000) = true ->
  (forall p, P (Workspace_export src p "DBC" false) = true) ->
  (forall p, P (Workspace_import p tgt "PYTHON" "DBC" false) = true) ->
  (forall p, P (Path_unlink p) = true) ->
  exists evs,
    trace (snd (backup_notebook src tgt tmp s)) = trace s ++ evs
    /\ forallb P evs = true.
Proof.
  intros Hr Hx Hi Hu.
  destruct (pair_inv (random_draw (world s))) as (r & w1 & Hd).
  set (p := pathlib.as_posix (intermediate_location tmp (Z.of_N r mod 1001))).
  destruct (pair_inv (export_workspace src p "DBC" false w1)) as (r_exp & w2 & He).
  destruct (pair_inv (import_workspace p tgt "PYTHON" "DBC" false w2)) as (r_imp & w3 & Him).
  destruct (pair_inv (unlink p w3)) as (r_unl & w4 & Hun).
  rewrite (backup_notebook_run src tgt tmp s r w1 r_exp w2 r_imp w3 r_unl w4 Hd He Him Hun).
  fold p. destruct r_exp; eexists; (split; [reflexivity|]); cbn [forallb];
    rewrite ?Hr, ?Hx, ?Hi, ?Hu; reflexivity.
Qed.

(** The same for [export_current_notebook_run]: besides the calls of its
    transfers it reads the notebook path and the clock and may call
    [mkdirs]. *)
Lemma export_current_notebook_run_events {W : Type} {collab : Collaborators W}
    (P : call -> bool) runs_dir (s : state W) :
  P Ctx_get_notebook_path = true ->
  P Datetime_now = true ->
  (forall dir, P (Workspace_mkdirs dir) = true) ->
  (forall src tgt (s' : state W),
      exists evs,
        trace (snd (backup_notebook src tgt default_tmp_dir s')) = trace s' ++ evs
        /\ forallb P evs = true) ->
  exists evs,
    trace (snd (export_current_notebook_run runs_dir s)) = trace s ++ evs
    /\ forallb P evs = true.
Proof.
  intros Hc Hn Hm Hb.
  destruct (pair_inv (get_notebook_path (world s))) as (rp & w1 & Hp).
  destruct rp as [cur|e].
  2:{ rewrite (export_current_notebook_run_no_context runs_dir s e w1 Hp).
      eexists. split; [reflexivity|]. cbn. now rewrite Hc. }
  destruct (pair_inv (datetime_now w1)) as (d & w2 & Hnow).
  rewrite (export_current_notebook_run_start runs_dir s cur w1 d w2 Hp Hnow).
  set (tp := run_target_path runs_dir cur (strftime d)).
  set (s1 := mkState w2 (trace s ++ [Ctx_get_notebook_path; Datetime_now])).
  destruct (Hb cur (pathlib.as_posix tp) s1) as (evs1 & Ht1 & Hp1).
  destruct (backup_notebook cur (pathlib.as_posix tp) default_tmp_dir s1) as [out s2].
  cbn [snd] in Ht1.
  assert (Hstop : exists evs, trace s2 = trace s ++ evs /\ forallb P evs = true).
  { exists ([Ctx_get_notebook_path; Datetime_now] ++ evs1). rewrite Ht1. unfold s1.
    cbn [trace]. rewrite <- app_assoc. split; [reflexivity|].
    rewrite forallb_app, Hp1. cbn. now rewrite Hc, Hn. }
  destruct out as [a|e]; [exact Hstop|].
  destruct e as [i m response| | | | | | |]; try exact Hstop.
  unfold on_http_error, bind, lift.
  destruct (response_json response) as [body|e]; [|exact Hstop].
  destruct (getitem body "error_code") as [code|e]; [|exact Hstop].
  destruct (eq_str code "RESOURCE_DOES_NOT_EXIST"); [|exact Hstop].
  unfold mkdir, perform.
  destruct (mkdirs (pathlib.as_posix (pathlib.parent tp)) (world s2)) as [[u|e] w3].
  - match goal with
    | |- context [backup_notebook ?a ?b ?c ?st] =>
        destruct (Hb a b st) as (evs2 & Ht2 & Hp2)
    end.
    exists ([Ctx_get_notebook_path; Datetime_now] ++ evs1
            ++ [Workspace_mkdirs (pathlib.as_posix (pathlib.parent tp))] ++ evs2).
    rewrite Ht2. cbn [trace]. rewrite Ht1. unfold s1. cbn [trace].
    rewrite <- !app_assoc. split; [reflexivity|].
    rewrite !forallb_app, Hp1, Hp2. cbn. now rewrite Hc, Hn, Hm.
  - exists ([Ctx_get_notebook_path; Datetime_now] ++ evs1
            ++ [Workspace_mkdirs (pathlib.as_posix (pathlib.parent tp))]).
    cbn [snd trace]. rewrite Ht1. unfold s1. cbn [trace].
    rewrite <- !app_assoc. split; [reflexivity|].
    rewrite !forallb_app, Hp1. cbn. now rewrite Hc, Hn, Hm.
Qed.

(** X1. Whatever the world answers, every workspace export and import that
    [export_current_notebook_run] issues, on the first transfer and on the
    retry, uses the format "DBC" and never asks to overwrite; imports are
    made with the language "PYTHON". *)
Theorem export_current_notebook_run_never_overwrites
    {W : Type} {collab : Collaborators W} runs_dir (s : state W) :
  exists evs,
    trace (snd (export_current_notebook_run runs_dir s)) = trace s ++ evs
    /\ forallb transfer_defaults evs = true.
Proof.
  apply export_current_notebook_run_events; try reflexivity.
  intros src tgt s'. apply backup_notebook_events; reflexivity.
Qed.

(** X2. When the first transfer of [export_current_notebook_run] returns, or
    raises anything that is not an [HTTPError] (an error of the local file
    system, a staging file that already exists), the invocation ends there
    with that very outcome: no error code is read, no directory is created and
    nothing is tried again. *)
Theorem export_current_notebook_run_ends_after_first_attempt
    {W : Type} {collab : Collaborators W}
    runs_dir (s : state W) cur w1 d w2 out s2 :
  let target := pathlib.as_posix (run_target_path runs_dir cur (strftime d)) in
  let s1 := mkState w2 (trace s ++ [Ctx_get_notebook_path; Datetime_now]) in
  get_notebook_path (world s) = (Return cur, w1) ->
  datetime_now w1 = (d, w2) ->
  backup_notebook cur target default_tmp_dir s1 = (out, s2) ->
  (forall i m response, out <> Raise (HTTPError i m response)) ->
  export_current_notebook_run runs_dir s = (out, s2).
Proof.
  intros target s1 Hp Hn Hb Hnot.
  rewrite (export_current_notebook_run_start runs_dir s cur w1 d w2 Hp Hn).
  fold target. fold s1. rewrite Hb.
  destruct out as [a|e]; [reflexivity|].
  destruct e; try reflexivity.
  destruct (Hnot _ _ _ eq_refl).
Qed.

(** The export hits a local error: the caller gets it, after one attempt. *)
Lemma export_current_notebook_run_ends_after_first_attempt_witness :
  let w := Script.set_exports Script.calm [Raise Script.os_error] in
  export_current_notebook_run default_runs_dir (Script.start w)
  = (Raise Script.os_error,
     mkState (Script.set_draws Script.calm [])
       [Ctx_get_notebook_path; Datetime_now; Random_randint 0 1000;
        Workspace_export "/Users/a/nb" "/dbfs/mnt/external/tmp/backup_5" "DBC" false]).
Proof.
  intros w.
  refine (export_current_notebook_run_ends_after_first_attempt
            (collab := Script.collaborators)
            default_runs_dir (Script.start w) "/Users/a/nb" w Script.a_morning w
            (Raise Script.os_error) _ eq_refl eq_refl eq_refl _).
  intros i m response. discriminate.
Defined.

(** X3. When the first transfer raises an [HTTPError] from which no error
    code can be read (no response attached, a body that is not JSON, a JSON
    value that is not a dictionary, a dictionary without "error_code"), the
    caller does not get the [HTTPError] back: the exception raised by the
    lookup takes its place. No directory is created and nothing is tried
    again. *)
Theorem export_current_notebook_run_unreadable_error_code
    {W : Type} {collab : Collaborators W}
    runs_dir (s : state W) cur w1 d w2 i m response s2 e :
  let target := pathlib.as_posix (run_target_path runs_dir cur (strftime d)) in
  let s1 := mkState w2 (trace s ++ [Ctx_get_notebook_path; Datetime_now]) in
  get_notebook_path (world s) = (Return cur, w1) ->
  datetime_now w1 = (d, w2) ->
  backup_notebook cur target default_tmp_dir s1 = (Raise (HTTPError i m response), s2) ->
  (response_json response = Raise e
   \/ exists body, response_json response = Return body
                   /\ getitem body "error_code" = Raise e) ->
  export_current_notebook_run runs_dir s = (Raise e, s2)
  /\ (e = AttributeError /\ response = None
      \/ e = JSONDecodeError
      \/ e = KeyError "error_code"
      \/ e = TypeError).
Proof.
  intros target s1 Hp Hn Hb Hcode. split.
  - rewrite (export_current_notebook_run_start runs_dir s cur w1 d w2 Hp Hn).
    fold target. fold s1. rewrite Hb. unfold on_http_error, bind, lift.
    destruct Hcode as [Hj|(body & Hj & Hg)]; rewrite Hj; [reflexivity|].
    rewrite Hg. reflexivity.
  - destruct Hcode as [Hj|(body & Hj & Hg)].
    + unfold response_json in Hj. destruct response as [r|].
      * destruct (json_body r); inversion Hj. auto.
      * inversion Hj. auto.
    + unfold getitem in Hg. destruct body; inversion Hg; auto.
      destruct (dict_get items "error_code"); inversion Hg. auto.
Qed.

(** A gateway answers 502 with an HTML page: the caller sees a JSON decoding
    error instead of the HTTP error. *)
Lemma export_current_notebook_run_unreadable_error_code_witness :
  let bad_gateway := HTTPError 7 "502 Server Error: Bad Gateway" (Some (mkResponse None)) in
  let w := Script.set_imports Script.calm [Raise bad_gateway] in
  fst (export_current_notebook_run default_runs_dir (Script.start w)) = Raise JSONDecodeError.
Proof.
  intros bad_gateway w.
  pose proof (export_current_notebook_run_unreadable_error_code
                (collab := Script.collaborators)
                default_runs_dir (Script.start w) "/Users/a/nb" w Script.a_morning w
                7 "502 Server Error: Bad Gateway" (Some (mkResponse None)) _ JSONDecodeError
                eq_refl eq_refl eq_refl (or_introl eq_refl)) as [Hrun _].
  rewrite Hrun. reflexivity.
Defined.

(** X4. The directory that [export_current_notebook_run] creates before its
    retry, the parent of the target path, is [runs_dir] joined with the
    notebook path without its first character: the time of the call plays no
    part in it. *)
Theorem recovery_directory_is_notebook_folder runs_dir current_path d :
  pathlib.parent (run_target_path runs_dir current_path (strftime d))
  = pathlib.joinpath (pathlib.Path runs_dir) (slice_from_1 current_path).
Proof.
  unfold run_target_path. apply parent_joinpath_name, strftime_is_name.
Qed.

(** ** Timestamps *)

Lemma string_length_app a b :
  String.length (a ++ b) = String.length a + String.length b.
Proof.
  induction a as [|c a IH]; cbn; [reflexivity|]. now rewrite IH.
Qed.

Lemma all_digits_app a b :
  all_digits a = true -> all_digits b = true -> all_digits (a ++ b) = true.
Proof.
  induction a as [|c a IH]; cbn; [auto|].
  intros H Hb. apply andb_true_iff in H as [H1 H2]. now rewrite H1, (IH H2 Hb).
Qed.

Lemma decimal_value_app a b :
  decimal_value (a ++ b)
  = (decimal_value a * 10 ^ Z.of_nat (String.length b) + decimal_value b)%Z.
Proof.
  induction a as [|c a IH]; cbn [String.append decimal_value]; [lia|].
  rewrite IH, string_length_app, Nat2Z.inj_add, Z.pow_add_r by lia. ring.
Qed.

Lemma numeral_app a b la lb va vb :
  numeral a la va -> numeral b lb vb ->
  numeral (a ++ b) (la + lb) (va * 10 ^ Z.of_nat lb + vb).
Proof.
  intros (Ha1 & Ha2 & Ha3) (Hb1 & Hb2 & Hb3). repeat split.
  - now apply all_digits_app.
  - rewrite string_length_app. congruence.
  - rewrite decimal_value_app. congruence.
Qed.

Lemma is_digit_range c :
  is_digit c = true -> (0 <= Z.of_N (N_of_ascii c) - 48 <= 9)%Z.
Proof.
  unfold is_digit. intros H. apply andb_true_iff in H as [H1 H2].
  apply N.leb_le in H1, H2. lia.
Qed.

Lemma decimal_value_bound s :
  all_digits s = true ->
  (0 <= decimal_value s < 10 ^ Z.of_nat (String.length s))%Z.
Proof.
  induction s as [|c s IH]; cbn [all_digits decimal_value String.length]; [lia|].
  intros H. apply andb_true_iff in H as [Hc Hs].
  pose proof (is_digit_range c Hc). specialize (IH Hs).
  rewrite Nat2Z.inj_succ, Z.pow_succ_r by lia. nia.
Qed.

(** On numerals of the same length the order of strings is the order of
    their values. *)
Lemma compare_numerals s : forall t,
  all_digits s = true -> all_digits t = true ->
  String.length s = String.length t ->
  String.compare s t = (decimal_value s ?= decimal_value t)%Z.
Proof.
  induction s as [|c s IH]; intros [|c' t] Hs Ht Hlen; try discriminate Hlen.
  - reflexivity.
  - cbn [all_digits] in Hs, Ht. apply andb_true_iff in Hs as [Hc Hs].
    apply andb_true_iff in Ht as [Hc' Ht]. injection Hlen as Hlen.
    pose proof (is_digit_range c Hc). pose proof (is_digit_range c' Hc').
    pose proof (decimal_value_bound s Hs) as Bs.
    pose proof (decimal_value_bound t Ht) as Bt.
    cbn [String.compare decimal_value]. rewrite <- Hlen in *.
    unfold Ascii.compare.
    set (P := (10 ^ Z.of_nat (String.length s))%Z) in *.
    destruct (N.compare_spec (N_of_ascii c) (N_of_ascii c')) as [Heq|Hlt|Hgt].
    + rewrite Heq, (IH t Hs Ht Hlen). symmetry. apply Z.add_compare_mono_l.
    + symmetry. apply Z.compare_lt_iff. nia.
    + symmetry. apply Z.compare_gt_iff. nia.
Qed.

Lemma pad_ok_numeral width n : pad_ok width n = true -> numeral (zero_pad width n) width n.
Proof.
  unfold pad_ok, numeral. intros H. apply andb_true_iff in H as [H H3].
  apply andb_true_iff in H as [H1 H2].
  apply Nat.eqb_eq in H2. apply Z.eqb_eq in H3. auto.
Qed.

Lemma below_bound (f : Z -> bool) (bound n : Z) :
  forallb f (map Z.of_nat (seq 0 (Z.to_nat bound))) = true ->
  (0 <= n < bound)%Z -> f n = true.
Proof.
  intros Hall Hn. rewrite forallb_forall in Hall. apply Hall.
  apply in_map_iff. exists (Z.to_nat n). split; [lia|].
  apply in_seq. lia.
Qed.

Lemma zero_pad_2_numeral n : (0 <= n <= 99)%Z -> numeral (zero_pad 2 n) 2 n.
Proof.
  intros Hn. apply pad_ok_numeral.
  apply (below_bound (pad_ok 2) 100); [vm_compute; reflexivity|lia].
Qed.

Lemma zero_pad_4_numeral n : (0 <= n <= 9999)%Z -> numeral (zero_pad 4 n) 4 n.
Proof.
  intros Hn. apply pad_ok_numeral.
  apply (below_bound (pad_ok 4) 10000); [vm_compute; reflexivity|lia].
Qed.

Lemma strftime_numeral d :
  valid_datetime d -> numeral (strftime d) 14 (timestamp_number d).
Proof.
  intros (Hy & Hmo & Hd & Hh & Hmi & Hs).
  pose proof (numeral_app _ _ _ _ _ _ (zero_pad_2_numeral (minute d) ltac:(lia))
                (zero_pad_2_numeral (second d) ltac:(lia))) as H1.
  pose proof (numeral_app _ _ _ _ _ _ (zero_pad_2_numeral (hour d) ltac:(lia)) H1) as H2.
  pose proof (numeral_app _ _ _ _ _ _ (zero_pad_2_numeral (day d) ltac:(lia)) H2) as H3.
  pose proof (numeral_app _ _ _ _ _ _ (zero_pad_2_numeral (month d) ltac:(lia)) H3) as H4.
  pose proof (numeral_app _ _ _ _ _ _ (zero_pad_4_numeral (year d) ltac:(lia)) H4) as H5.
  destruct H5 as (Hdig & Hlen & Hval). repeat split.
  - exact Hdig.
  - exact Hlen.
  - unfold strftime. rewrite Hval. unfold timestamp_number.
    change (Z.of_nat (2 + (2 + (2 + (2 + 2))))) with 10%Z.
    change (Z.of_nat (2 + (2 + (2 + 2)))) with 8%Z.
    change (Z.of_nat (2 + (2 + 2))) with 6%Z.
    change (Z.of_nat (2 + 2)) with 4%Z.
    change (Z.of_nat 2) with 2%Z.
    change (10 ^ 10)%Z with 10000000000%Z.
    change (10 ^ 8)%Z with 100000000%Z.
    change (10 ^ 6)%Z with 1000000%Z.
    change (10 ^ 4)%Z with 10000%Z.
    change (10 ^ 2)%Z with 100%Z.
    ring.
Qed.

Lemma timestamp_number_order d1 d2 :
  valid_datetime d1 -> valid_datetime d2 ->
  (timestamp_number d1 ?= timestamp_number d2)%Z = chronological d1 d2.
Proof.
  intros (Hy1 & Hmo1 & Hd1 & Hh1 & Hmi1 & Hs1) (Hy2 & Hmo2 & Hd2 & Hh2 & Hmi2 & Hs2).
  unfold chronological, then_by, timestamp_number.
  destruct (Z.compare_spec (year d1) (year d2));
    [|apply Z.compare_lt_iff; lia|apply Z.compare_gt_iff; lia].
  destruct (Z.compare_spec (month d1) (month d2));
    [|apply Z.compare_lt_iff; lia|apply Z.compare_gt_iff; lia].
  destruct (Z.compare_spec (day d1) (day d2));
    [|apply Z.compare_lt_iff; lia|apply Z.compare_gt_iff; lia].
  destruct (Z.compare_spec (hour d1) (hour d2));
    [|apply Z.compare_lt_iff; lia|apply Z.compare_gt_iff; lia].
  destruct (Z.compare_spec (minute d1) (minute d2));
    [|apply Z.compare_lt_iff; lia|apply Z.compare_gt_iff; lia].
  destruct (Z.compare_spec (second d1) (second d2));
    [apply Z.compare_eq_iff; lia|apply Z.compare_lt_iff; lia|apply Z.compare_gt_iff; lia].
Qed.

(** X5. For a date with a four-digit year the timestamp of
    [export_current_notebook_run] has exactly fourteen characters, all of them
    decimal digits. *)
Theorem timestamp_has_fourteen_digits d :
  valid_datetime d ->
  String.length (strftime d) = 14 /\ all_digits (strftime d) = true.
Proof.
  intros Hv. destruct (strftime_numeral d Hv) as (Hdig & Hlen & _). auto.
Qed.

Lemma timestamp_has_fourteen_digits_witness :
  String.length (strftime Script.a_morning) = 14
  /\ all_digits (strftime Script.a_morning) = true.
Proof.
  apply (timestamp_has_fourteen_digits Script.a_morning).
  unfold valid_datetime. cbn. lia.
Defined.

Lemma strftime_inj d1 d2 :
  valid_datetime d1 -> valid_datetime d2 -> strftime d1 = strftime d2 -> d1 = d2.
Proof.
  intros Hv1 Hv2 Heq.
  destruct (strftime_numeral d1 Hv1) as (_ & _ & Hval1).
  destruct (strftime_numeral d2 Hv2) as (_ & _ & Hval2).
  assert (Hnum : timestamp_number d1 = timestamp_number d2) by congruence.
  destruct Hv1 as (Hy1 & Hmo1 & Hd1 & Hh1 & Hmi1 & Hs1).
  destruct Hv2 as (Hy2 & Hmo2 & Hd2 & Hh2 & Hmi2 & Hs2).
  unfold timestamp_number in Hnum.
  destruct d1 as [y1 mo1 dd1 h1 mi1 s1], d2 as [y2 mo2 dd2 h2 mi2 s2].
  cbn [year month day hour minute second] in *.
  assert (y1 = y2) by lia. assert (mo1 = mo2) by lia. assert (dd1 = dd2) by lia.
  assert (h1 = h2) by lia. assert (mi1 = mi2) by lia. assert (s1 = s2) by lia.
  congruence.
Qed.

(** X6. Timestamps sort like the dates they come from: comparing two
    timestamps as strings, character by character, gives the comparison of
    the two dates by year, then month, day, hour, minute and second. *)
Theorem timestamp_order_is_chronological d1 d2 :
  valid_datetime d1 -> valid_datetime d2 ->
  String.compare (strftime d1) (strftime d2) = chronological d1 d2.
Proof.
  intros Hv1 Hv2.
  destruct (strftime_numeral d1 Hv1) as (Hdig1 & Hlen1 & Hval1).
  destruct (strftime_numeral d2 Hv2) as (Hdig2 & Hlen2 & Hval2).
  rewrite (compare_numerals _ _ Hdig1 Hdig2) by congruence.
  rewrite Hval1, Hval2. apply timestamp_number_order; assumption.
Qed.

(** 09:30:00 comes before 10:05:07 on the same day, and so do their
    timestamps. *)
Lemma timestamp_order_is_chronological_witness :
  String.compare (strftime Script.a_morning) (strftime (mkDatetime 2024 1 15 10 5 7)) = Lt.
Proof.
  refine (timestamp_order_is_chronological
            Script.a_morning (mkDatetime 2024 1 15 10 5 7) _ _);
    unfold valid_datetime; cbn; lia.
Defined.

(** ** Names that cannot collide *)

Lemma str_int_inj n m : str_int n = str_int m -> n = m.
Proof.
  unfold str_int. intros H.
  assert (Hnil : forall z, Z.to_int z <> Decimal.Pos Decimal.Nil
                           /\ Z.to_int z <> Decimal.Neg Decimal.Nil).
  { intros [|p|p]; cbn; split; try discriminate;
      intros Habs; injection Habs as Habs; exact (Unsigned.to_uint_nonnil p Habs). }
  apply (f_equal NilZero.int_of_string) in H.
  rewrite !NilZero.isi in H by apply Hnil.
  injection H as H. apply (f_equal Z.of_int) in H. now rewrite !DecimalZ.of_to in H.
Qed.

Lemma append_inv_head (a x y : string) : (a ++ x)%string = (a ++ y)%string -> x = y.
Proof.
  induction a as [|c a IH]; cbn; [auto|]. intros H. injection H as H. auto.
Qed.

Lemma is_name_not_empty x : is_name x = true -> x <> "".
Proof.
  intros H ->. discriminate H.
Qed.

(** Joining a component to a path prints as a text that depends on the path
    alone, followed by the component. *)
Lemma as_posix_joinpath_stem p :
  exists stem, forall x,
    is_name x = true ->
    pathlib.as_posix (pathlib.joinpath p x) = (stem ++ x)%string.
Proof.
  destruct (pathlib.names p) as [|a l] eqn:Hn.
  - exists (pathlib.root p). intros x Hx. rewrite (joinpath_name p x Hx), Hn.
    unfold pathlib.as_posix. cbn [pathlib.root pathlib.names app pathlib.join].
    destruct (String.eqb_spec (pathlib.root p ++ x) "") as [Habs|_]; [|reflexivity].
    destruct (append_not_empty_r (pathlib.root p) x (is_name_not_empty x Hx) Habs).
  - exists (pathlib.root p ++ pathlib.join (a :: l) ++ String pathlib.sep "")%string.
    intros x Hx. rewrite (joinpath_name p x Hx), Hn.
    unfold pathlib.as_posix. cbn [pathlib.root pathlib.names].
    rewrite (join_snoc (a :: l) x) by discriminate.
    assert (Hshape : (pathlib.root p ++ pathlib.join (a :: l) ++ String pathlib.sep x)%string
                     = ((pathlib.root p ++ pathlib.join (a :: l) ++ String pathlib.sep "")
                        ++ x)%string).
    { rewrite !string_app_assoc. reflexivity. }
    rewrite Hshape.
    match goal with
    | |- (if String.eqb ?t "" then _ else _) = _ =>
        destruct (String.eqb_spec t "") as [Habs|_]; [|reflexivity]
    end.
    destruct (append_not_empty_r _ x (is_name_not_empty x Hx) Habs).
Qed.

Lemma as_posix_joinpath_inj p x y :
  is_name x = true -> is_name y = true ->
  pathlib.as_posix (pathlib.joinpath p x) = pathlib.as_posix (pathlib.joinpath p y) ->
  x = y.
Proof.
  intros Hx Hy H. destruct (as_posix_joinpath_stem p) as (stem & Hstem).
  rewrite (Hstem x Hx), (Hstem y Hy) in H. exact (append_inv_head stem x y H).
Qed.

(** X7. In one staging directory two backups use the same staging file
    exactly when they drew the same number: different numbers always give
    different paths, and nothing else tells two backups apart. *)
Theorem staging_paths_differ_with_the_number tmp_dir n m :
  pathlib.as_posix (intermediate_location tmp_dir n)
  = pathlib.as_posix (intermediate_location tmp_dir m)
  <-> n = m.
Proof.
  split; [|intros ->; reflexivity].
  unfold intermediate_location. intros H.
  apply as_posix_joinpath_inj in H; try apply backup_name_is_name.
  apply (append_inv_head "backup_") in H. exact (str_int_inj n m H).
Qed.

(** X8. Snapshots of one notebook under one runs directory taken at two
    different seconds go to two different target paths. *)
Theorem snapshots_at_different_times_do_not_collide runs_dir current_path d1 d2 :
  valid_datetime d1 -> valid_datetime d2 ->
  pathlib.as_posix (run_target_path runs_dir current_path (strftime d1))
  = pathlib.as_posix (run_target_path runs_dir current_path (strftime d2)) ->
  d1 = d2.
Proof.
  intros Hv1 Hv2 H. unfold run_target_path in H.
  apply as_posix_joinpath_inj in H; try apply strftime_is_name.
  exact (strftime_inj d1 d2 Hv1 Hv2 H).
Qed.

Lemma snapshots_at_different_times_do_not_collide_witness :
  Script.a_morning = mkDatetime 2024 1 15 9 30 0.
Proof.
  refine (snapshots_at_different_times_do_not_collide
            "/Shared/runs/" "/Users/a/nb" Script.a_morning (mkDatetime 2024 1 15 9 30 0)
            _ _ eq_refl);
    unfold valid_datetime; cbn; lia.
Defined.

(** ** More on [create_job] *)

Section CreateJobCalls.

Context {W : Type} {collab : Collaborators W}.

Lemma create_job_cluster_failure notebook_path job_name cluster_name cluster_id email
    (s : state W) e s1 :
  select_cluster cluster_name cluster_id s = (Raise e, s1) ->
  create_job notebook_path job_name cluster_name cluster_id email s = (Raise e, s1).
Proof.
  intros Hc. unfold create_job, bind. rewrite Hc. reflexivity.
Qed.

Lemma create_job_path_failure notebook_path job_name cluster_name cluster_id email
    (s : state W) c s1 e w2 :
  select_cluster cluster_name cluster_id s = (Return c, s1) ->
  pathlib.is_absolute (pathlib.Path notebook_path) = false ->
  get_notebook_path (world s1) = (Raise e, w2) ->
  create_job notebook_path job_name cluster_name cluster_id email s
  = (Raise e, mkState w2 (trace s1 ++ [Ctx_get_notebook_path])).
Proof.
  intros Hc Hrel Hp. unfold create_job, bind. rewrite Hc.
  unfold resolve_notebook_path. rewrite Hrel. cbn [negb].
  unfold bind, perform. rewrite Hp. reflexivity.
Qed.

(** The calls [create_job] makes once the cluster is chosen: it may read the
    notebook path, and then sends the job at most once, last. *)
Lemma create_job_after_cluster notebook_path job_name cluster_name cluster_id email
    (s : state W) c s1 :
  select_cluster cluster_name cluster_id s = (Return c, s1) ->
  exists evs,
    trace (snd (create_job notebook_path job_name cluster_name cluster_id email s))
    = trace s1 ++ evs
    /\ count is_jobs_create evs <= 1
    /\ count is_cluster_lookup evs = 0
    /\ count is_context_cluster evs = 0
    /\ (forall st, In (Jobs_create_job st) evs ->
        js_name st = match if_truthy job_name with
                     | Some name => name
                     | None => notebook_path
                     end
        /\ js_existing_cluster_id st = c
        /\ js_on_success st = [email]
        /\ js_on_failure st = [email]
        /\ exists before, evs = before ++ [Jobs_create_job st]).
Proof.
  intros Hc.
  destruct (create_job_sends notebook_path job_name cluster_name cluster_id email s c s1 Hc)
    as (Hrel & Habs).
  destruct (pathlib.is_absolute (pathlib.Path notebook_path)) eqn:Hshape.
  - eexists. split; [exact (Habs eq_refl)|].
    split; [cbn; lia|]. split; [reflexivity|]. split; [reflexivity|].
    intros st [Hst|[]]. injection Hst as <-.
    do 4 (split; [reflexivity|]). exists []. reflexivity.
  - destruct (pair_inv (get_notebook_path (world s1))) as ([cur|e] & w2 & Hp).
    + eexists. split; [exact (Hrel eq_refl cur w2 Hp)|].
      split; [cbn; lia|]. split; [reflexivity|]. split; [reflexivity|].
      intros st [Hst|[Hst|[]]]; [discriminate Hst|]. injection Hst as <-.
      do 4 (split; [reflexivity|]). exists [Ctx_get_notebook_path]. reflexivity.
    + rewrite (create_job_path_failure notebook_path job_name cluster_name cluster_id
                 email s c s1 e w2 Hc Hshape Hp).
      eexists. split; [reflexivity|].
      split; [cbn; lia|]. split; [reflexivity|]. split; [reflexivity|].
      intros st [Hst|[]]. discriminate Hst.
Qed.

(** What [select_cluster] does before that. *)
Lemma select_cluster_calls cluster_name cluster_id (s : state W) :
  exists evs,
    trace (snd (select_cluster cluster_name cluster_id s)) = trace s ++ evs
    /\ count is_jobs_create evs = 0.
Proof.
  unfold select_cluster.
  destruct (if_truthy cluster_name) as [name|].
  - unfold bind, assert, perform. destruct cluster_id; cbn.
    + exists []. now rewrite app_nil_r.
    + destruct (get_cluster_id_for_name name (world s)). eexists. split; reflexivity.
  - destruct (if_truthy cluster_id).
    + exists []. cbn. now rewrite app_nil_r.
    + unfold perform. destruct (get_notebook_cluster_id (world s)).
      eexists. split; reflexivity.
Qed.

End CreateJobCalls.

(** X9. In every run of [create_job] the job is sent to the Jobs API at most
    once, and when it is sent that is the last call made. The settings sent
    are named by [job_name], or by [notebook_path] as passed when [job_name]
    is missing or empty, and both notification lists hold exactly the one
    value of [notifications_email], also when that value is [None]. *)
Theorem create_job_sends_one_job {W : Type} {collab : Collaborators W}
    notebook_path job_name cluster_name cluster_id email (s : state W) :
  exists evs,
    trace (snd (create_job notebook_path job_name cluster_name cluster_id email s))
    = trace s ++ evs
    /\ count is_jobs_create evs <= 1
    /\ (forall st, In (Jobs_create_job st) evs ->
        js_name st = match if_truthy job_name with
                     | Some name => name
                     | None => notebook_path
                     end
        /\ js_on_success st = [email]
        /\ js_on_failure st = [email]
        /\ exists before, evs = before ++ [Jobs_create_job st]
                          /\ count is_jobs_create before = 0).
Proof.
  destruct (select_cluster_calls cluster_name cluster_id s) as (evs0 & Ht0 & Hn0).
  destruct (select_cluster cluster_name cluster_id s) as [[c|e] s1] eqn:Hc.
  - cbn [snd] in Ht0.
    destruct (create_job_after_cluster notebook_path job_name cluster_name cluster_id
                email s c s1 Hc) as (evs & Ht & Hle & _ & _ & Hst).
    exists (evs0 ++ evs). rewrite Ht, Ht0, <- app_assoc. split; [reflexivity|].
    rewrite count_app, Hn0. split; [exact Hle|].
    intros st Hin. apply in_app_or in Hin as [Hin|Hin].
    + exfalso. unfold count in Hn0.
      assert (Hf : In (Jobs_create_job st) (filter is_jobs_create evs0))
        by (apply filter_In; auto).
      destruct (filter is_jobs_create evs0); [exact Hf|discriminate Hn0].
    + destruct (Hst st Hin) as (H1 & _ & H3 & H4 & before & Hb).
      repeat split; auto. exists (evs0 ++ before). rewrite Hb, app_assoc.
      split; [reflexivity|]. rewrite count_app, Hn0. cbn.
      rewrite Hb, count_app in Hle. cbn in Hle. lia.
  - rewrite (create_job_cluster_failure notebook_path job_name cluster_name cluster_id
               email s e s1 Hc).
    exists evs0. cbn [snd] in Ht0 |- *. split; [exact Ht0|]. rewrite Hn0.
    split; [lia|]. intros st Hin. exfalso. unfold count in Hn0.
    assert (Hf : In (Jobs_create_job st) (filter is_jobs_create evs0))
      by (apply filter_In; auto).
    destruct (filter is_jobs_create evs0); [exact Hf|discriminate Hn0].
Qed.

Lemma if_truthy_some name : name <> "" -> if_truthy (Some name) = Some name.
Proof.
  intros Hne. cbn. apply String.eqb_neq in Hne. now rewrite Hne.
Qed.

(** X10. With a [cluster_name] and no [cluster_id], [create_job] first asks
    the Clusters API for the id of the cluster of that name. If that call
    raises, its error is the outcome and no job is sent; if it returns, the
    job that is sent runs on the id returned and the cluster of the notebook
    is not consulted. *)
Theorem create_job_cluster_by_name {W : Type} {collab : Collaborators W}
    notebook_path job_name name email (s : state W) r w1 :
  let s1 := mkState w1 (trace s ++ [Cluster_get_cluster_id_for_name name]) in
  name <> "" ->
  get_cluster_id_for_name name (world s) = (r, w1) ->
  match r with
  | Raise e =>
      create_job notebook_path job_name (Some name) None email s = (Raise e, s1)
  | Return c =>
      exists evs,
        trace (snd (create_job notebook_path job_name (Some name) None email s))
        = trace s1 ++ evs
        /\ count is_context_cluster evs = 0
        /\ (forall st, In (Jobs_create_job st) evs -> js_existing_cluster_id st = c)
  end.
Proof.
  intros s1 Hne Hl.
  assert (Hsel : select_cluster (Some name) None s = (r, s1)).
  { unfold select_cluster. rewrite (if_truthy_some name Hne).
    unfold bind, assert, perform. cbn. rewrite Hl. destruct r; reflexivity. }
  destruct r as [c|e].
  - destruct (create_job_after_cluster notebook_path job_name (Some name) None email
                s c s1 Hsel) as (evs & Ht & _ & _ & Hctx & Hst).
    exists evs. repeat split; auto. intros st Hin. apply (Hst st Hin).
  - apply create_job_cluster_failure, Hsel.
Qed.

Lemma create_job_cluster_by_name_witness :
  exists evs,
    trace (snd (create_job "/Users/a/nb" None (Some "shared-cluster") None None
                  (Script.start Script.calm)))
    = [Cluster_get_cluster_id_for_name "shared-cluster"] ++ evs
    /\ count is_context_cluster evs = 0
    /\ (forall st, In (Jobs_create_job st) evs
                   -> js_existing_cluster_id st = "0115-093000-xyz789").
Proof.
  exact (create_job_cluster_by_name (collab := Script.collaborators)
           "/Users/a/nb" None "shared-cluster" None (Script.start Script.calm)
           (Return "0115-093000-xyz789") Script.calm
           ltac:(discriminate) eq_refl).
Defined.

(** X11. With a non-empty [cluster_id] and a [cluster_name] that is missing
    or empty, [create_job] uses the id as given. Choosing the cluster returns
    that id without raising and without calling anything, also for an empty
    [cluster_name] next to the [cluster_id]. The outcome of [create_job] is
    then decided by the path resolution and the Jobs API alone: if the
    resolution raises, that error is the outcome; otherwise the job is sent
    with [existing_cluster_id] equal to the id, and the outcome is the [DBJob]
    of the answer or the error of the creation. No cluster lookup is made and
    the cluster of the notebook is not read. *)
Theorem create_job_cluster_by_id {W : Type} {collab : Collaborators W}
    notebook_path job_name cluster_name id email (s : state W) :
  let name :=
    match if_truthy job_name with Some name => name | None => notebook_path end in
  if_truthy cluster_name = None ->
  id <> "" ->
  select_cluster cluster_name (Some id) s = (Return id, s)
  /\ (forall e s2,
        resolve_notebook_path notebook_path s = (Raise e, s2) ->
        create_job notebook_path job_name cluster_name (Some id) email s = (Raise e, s2))
  /\ (forall resolved s2 r_job w3,
        resolve_notebook_path notebook_path s = (Return resolved, s2) ->
        jobs_create_job (mkJobSettings name id resolved [email] [email]) (world s2)
        = (r_job, w3) ->
        create_job notebook_path job_name cluster_name (Some id) email s
        = (match r_job with
           | Return jobdata =>
               match getitem jobdata "job_id" with
               | Return i => Return (mkDBJob i)
               | Raise e => Raise e
               end
           | Raise e => Raise e
           end,
           mkState w3
             (trace s2
              ++ [Jobs_create_job (mkJobSettings name id resolved [email] [email])])))
  /\ exists evs,
       trace (snd (create_job notebook_path job_name cluster_name (Some id) email s))
       = trace s ++ evs
       /\ count is_cluster_lookup evs = 0
       /\ count is_context_cluster evs = 0
       /\ (forall st, In (Jobs_create_job st) evs -> js_existing_cluster_id st = id).
Proof.
  intros name Hname Hid.
  assert (Hsel : select_cluster cluster_name (Some id) s = (Return id, s)).
  { unfold select_cluster. rewrite Hname, (if_truthy_some id Hid). reflexivity. }
  split; [exact Hsel|]. split; [|split].
  - intros e s2 Hr. unfold create_job, bind. rewrite Hsel, Hr. reflexivity.
  - intros resolved s2 r_job w3 Hr Hj.
    exact (create_job_run notebook_path job_name cluster_name (Some id) email
             s id s resolved s2 r_job w3 Hsel Hr Hj).
  - destruct (create_job_after_cluster notebook_path job_name cluster_name (Some id) email
                s id s Hsel) as (evs & Ht & _ & Hl & Hctx & Hst).
    exists evs. split; [exact Ht|]. split; [exact Hl|]. split; [exact Hctx|].
    intros st Hin. apply (Hst st Hin).
Qed.

(** An empty [cluster_name] next to a [cluster_id]: the job is created on
    that cluster. *)
Lemma create_job_cluster_by_id_witness :
  create_job "/Users/a/nb" None (Some "") (Some "0115-093000-abc123") None
    (Script.start Script.calm)
  = (Return (mkDBJob (JNum 42)),
     mkState Script.calm
       [Jobs_create_job
          (mkJobSettings "/Users/a/nb" "0115-093000-abc123" "/Users/a/nb"
             [None] [None])]).
Proof.
  exact (proj1 (proj2 (proj2
           (create_job_cluster_by_id (collab := Script.collaborators)
              "/Users/a/nb" None (Some "") "0115-093000-abc123" None
              (Script.start Script.calm) eq_refl ltac:(discriminate))))
           "/Users/a/nb" (Script.start Script.calm)
           (Return (JObj [("job_id", JNum 42)])) Script.calm eq_refl eq_refl).
Defined.



(** X13. When the Jobs API answers the creation with a dictionary that has
    no "job_id", [create_job] raises [KeyError] although the creation call
    has been made: the caller gets no [DBJob] for the job. With a "job_id"
    the [DBJob] returned carries it. *)
Theorem create_job_answer_without_job_id {W : Type} {collab : Collaborators W}
    notebook_path job_name cluster_name cluster_id email
    (s : state W) c s1 resolved s2 items w3 :
  let sent :=
    mkJobSettings
      (match if_truthy job_name with Some name => name | None => notebook_path end)
      c resolved [email] [email] in
  select_cluster cluster_name cluster_id s = (Return c, s1) ->
  resolve_notebook_path notebook_path s1 = (Return resolved, s2) ->
  jobs_create_job sent (world s2) = (Return (JObj items), w3) ->
  create_job notebook_path job_name cluster_name cluster_id email s
  = (match dict_get items "job_id" with
     | Some id => Return (mkDBJob id)
     | None => Raise (KeyError "job_id")
     end,
     mkState w3 (trace s2 ++ [Jobs_create_job sent])).
Proof.
  intros sent Hc Hr Hj.
  rewrite (create_job_run notebook_path job_name cluster_name cluster_id email
             s c s1 resolved s2 (Return (JObj items)) w3 Hc Hr Hj).
  fold sent. cbn [getitem]. destruct (dict_get items "job_id"); reflexivity.
Qed.

Lemma create_job_answer_without_job_id_witness :
  let w := Script.mkWorld (Return "/Users/a/nb") (Return "0115-093000-abc123")
             Script.a_morning [] [] [] [] [] (Return "0115-093000-xyz789")
             (Return (JObj [("error", JStr "quota exceeded")])) in
  create_job "/Users/a/nb" None None (Some "0115-093000-abc123") None (Script.start w)
  = (Raise (KeyError "job_id"),
     mkState w [Jobs_create_job
                  (mkJobSettings "/Users/a/nb" "0115-093000-abc123" "/Users/a/nb"
                     [None] [None])]).
Proof.
  intros w.
  exact (create_job_answer_without_job_id (collab := Script.collaborators)
           "/Users/a/nb" None None (Some "0115-093000-abc123") None
           (Script.start w) "0115-093000-abc123" (Script.start w) "/Users/a/nb"
           (Script.start w) [("error", JStr "quota exceeded")] w
           eq_refl eq_refl eq_refl).
Defined.

(** X14. When a relative [notebook_path] has to be resolved and the path of
    the current notebook cannot be read, the error of that read is the
    outcome of [create_job] and no job is sent. *)
Theorem create_job_relative_path_without_context {W : Type} {collab : Collaborators W}
    notebook_path job_name cluster_name cluster_id email (s : state W) c s1 e w2 :
  select_cluster cluster_name cluster_id s = (Return c, s1) ->
  pathlib.is_absolute (pathlib.Path notebook_path) = false ->
  get_notebook_path (world s1) = (Raise e, w2) ->
  create_job notebook_path job_name cluster_name cluster_id email s
  = (Raise e, mkState w2 (trace s1 ++ [Ctx_get_notebook_path]))
  /\ exists evs,
       trace (snd (create_job notebook_path job_name cluster_name cluster_id email s))
       = trace s ++ evs
       /\ count is_jobs_create evs = 0.
Proof.
  intros Hc Hrel Hp.
  pose proof (create_job_path_failure notebook_path job_name cluster_name cluster_id
                email s c s1 e w2 Hc Hrel Hp) as Hrun.
  split; [exact Hrun|]. rewrite Hrun. cbn [snd trace].
  destruct (select_cluster_calls cluster_name cluster_id s) as (evs0 & Ht0 & Hn0).
  rewrite Hc in Ht0. cbn [snd] in Ht0.
  exists (evs0 ++ [Ctx_get_notebook_path]). rewrite Ht0, <- app_assoc.
  split; [reflexivity|]. rewrite count_app, Hn0. reflexivity.
Qed.

Lemma create_job_relative_path_without_context_witness :
  let w := Script.set_notebook_path Script.calm (Raise Script.os_error) in
  create_job "foo/bar" None None (Some "0115-093000-abc123") None (Script.start w)
  = (Raise Script.os_error, mkState w [Ctx_get_notebook_path]).
Proof.
  intros w.
  exact (proj1 (create_job_relative_path_without_context
                  (collab := Script.collaborators)
                  "foo/bar" None None (Some "0115-093000-abc123") None
                  (Script.start w) "0115-093000-abc123" (Script.start w)
                  Script.os_error w eq_refl eq_refl eq_refl)).
Defined.

(** ** Runs: class [DBJobRun] *)

Section RunProperties.

Context {W : Type} {services : Services W}.

Lemma data_run (self : DBJobRun) (st : W * list api_call) r w :
  runs_get_run (run_id self) (fst st) = (r, w) ->
  Run.data self st = (r, (w, snd st ++ [Runs_get_run (run_id self)])).
Proof.
  intros H. unfold Run.data, request. rewrite H. reflexivity.
Qed.

(** Reading a field of the state of a run. *)
Lemma state_field_run (self : DBJobRun) (st : W * list api_call) key r w :
  runs_get_run (run_id self) (fst st) = (r, w) ->
  lbind (Run.data self)
    (fun d => lbind (llift (getitem d "state"))
                (fun state => llift (get_method state key))) st
  = (match r with
     | Return d =>
         match getitem d "state" with
         | Return state => get_method state key
         | Raise e => Raise e
         end
     | Raise e => Raise e
     end,
     (w, snd st ++ [Runs_get_run (run_id self)])).
Proof.
  intros H. unfold lbind. rewrite (data_run self st r w H).
  destruct r as [d|e]; [|reflexivity].
  unfold llift. destruct (getitem d "state"); reflexivity.
Qed.

Lemma top_field_run (self : DBJobRun) (st : W * list api_call) key r w :
  runs_get_run (run_id self) (fst st) = (r, w) ->
  lbind (Run.data self) (fun d => llift (getitem d key)) st
  = (match r with
     | Return d => getitem d key
     | Raise e => Raise e
     end,
     (w, snd st ++ [Runs_get_run (run_id self)])).
Proof.
  intros H. unfold lbind. rewrite (data_run self st r w H).
  destruct r; reflexivity.
Qed.

End RunProperties.

(** X15. Nothing about a run is cached: every read of [result_state],
    [life_cycle_state], [state_message], [run_page_url] or [attempt_number]
    makes exactly one [get_run] call for the id of the run, and
    [get_run_output] exactly one [get_run_output] call, whatever the Runs API
    answers. *)
Theorem run_properties_ask_the_api_each_time {W : Type} {services : Services W}
    (self : DBJobRun) (st : W * list api_call) :
  snd (snd (Run.result_state self st)) = snd st ++ [Runs_get_run (run_id self)]
  /\ snd (snd (Run.life_cycle_state self st)) = snd st ++ [Runs_get_run (run_id self)]
  /\ snd (snd (Run.state_message self st)) = snd st ++ [Runs_get_run (run_id self)]
  /\ snd (snd (Run.run_page_url self st)) = snd st ++ [Runs_get_run (run_id self)]
  /\ snd (snd (Run.attempt_number self st)) = snd st ++ [Runs_get_run (run_id self)]
  /\ snd (snd (Run.get_run_output self st))
     = snd st ++ [Runs_get_run_output (run_id self)].
Proof.
  destruct (pair_inv (runs_get_run (run_id self) (fst st))) as (r & w & H).
  unfold Run.result_state, Run.life_cycle_state, Run.state_message,
    Run.run_page_url, Run.attempt_number.
  rewrite !(state_field_run self st _ r w H), !(top_field_run self st _ r w H).
  repeat (split; [reflexivity|]).
  unfold Run.get_run_output, lbind, request.
  destruct (runs_get_run_output (run_id self) (fst st)) as [[d|e] w'];
    reflexivity.
Qed.

(** X16. When the record of a run has a "state" dictionary, a field that
    dictionary lacks reads as [None]: [result_state], [life_cycle_state] and
    [state_message] return the value stored under their key, or [None], and
    do not raise. *)
Theorem run_state_fields_default_to_None {W : Type} {services : Services W}
    (self : DBJobRun) (st : W * list api_call) items fields w :
  let field key :=
    Return (match dict_get fields key with Some v => v | None => JNull end) in
  runs_get_run (run_id self) (fst st) = (Return (JObj items), w) ->
  dict_get items "state" = Some (JObj fields) ->
  fst (Run.result_state self st) = field "result_state"
  /\ fst (Run.life_cycle_state self st) = field "life_cycle_state"
  /\ fst (Run.state_message self st) = field "state_message".
Proof.
  intros field H Hs.
  unfold Run.result_state, Run.life_cycle_state, Run.state_message.
  rewrite !(state_field_run self st _ _ w H). cbn [fst getitem]. rewrite Hs.
  unfold get_method, field.
  repeat split; match goal with |- context [dict_get fields ?k] =>
                                  destruct (dict_get fields k) end; reflexivity.
Qed.

(** A run that has not finished has no result yet. *)
Lemma run_state_fields_default_to_None_witness :
  let w := RunScript.mkWorld (Return "dapi-token") (Return "https://host") []
             [Return RunScript.running] [] in
  fst (Run.result_state RunScript.run_7 (w, [])) = Return JNull
  /\ fst (Run.life_cycle_state RunScript.run_7 (w, [])) = Return (JStr "RUNNING")
  /\ fst (Run.state_message RunScript.run_7 (w, [])) = Return (JStr "In run").
Proof.
  intros w.
  exact (run_state_fields_default_to_None (services := RunScript.services)
           RunScript.run_7 (w, [])
           [("run_id", JNum 7);
            ("state", JObj [("life_cycle_state", JStr "RUNNING");
                            ("state_message", JStr "In run")]);
            ("run_page_url", JStr "https://host/#job/42/run/7");
            ("attempt_number", JNum 0)]
           [("life_cycle_state", JStr "RUNNING"); ("state_message", JStr "In run")]
           RunScript.quiet eq_refl eq_refl).
Defined.

(** X17. The top-level keys are not optional: when the record of a run has
    no "state", the three state properties raise [KeyError] for "state", and
    [run_page_url] and [attempt_number] raise [KeyError] for their own key
    when it is missing. *)
Theorem run_record_missing_keys {W : Type} {services : Services W}
    (self : DBJobRun) (st : W * list api_call) items w :
  runs_get_run (run_id self) (fst st) = (Return (JObj items), w) ->
  (dict_get items "state" = None ->
   fst (Run.result_state self st) = Raise (KeyError "state")
   /\ fst (Run.life_cycle_state self st) = Raise (KeyError "state")
   /\ fst (Run.state_message self st) = Raise (KeyError "state"))
  /\ (dict_get items "run_page_url" = None ->
      fst (Run.run_page_url self st) = Raise (KeyError "run_page_url"))
  /\ (dict_get items "attempt_number" = None ->
      fst (Run.attempt_number self st) = Raise (KeyError "attempt_number")).
Proof.
  intros H.
  unfold Run.result_state, Run.life_cycle_state, Run.state_message,
    Run.run_page_url, Run.attempt_number.
  rewrite !(state_field_run self st _ _ w H), !(top_field_run self st _ _ w H).
  cbn [fst getitem]. split; [|split]; intros Hk; rewrite Hk; auto.
Qed.

Lemma run_record_missing_keys_witness :
  fst (Run.result_state RunScript.run_7 (RunScript.quiet, [])) = Raise (KeyError "state")
  /\ fst (Run.run_page_url RunScript.run_7 (RunScript.quiet, []))
     = Raise (KeyError "run_page_url").
Proof.
  destruct (run_record_missing_keys (services := RunScript.services)
              RunScript.run_7 (RunScript.quiet, []) [] RunScript.quiet eq_refl)
    as (Hstate & Hurl & _).
  split; [exact (proj1 (Hstate eq_refl))|exact (Hurl eq_refl)].
Defined.

(** X18. [get_run_output] returns what the answer of the Runs API stores
    under "notebook_output", and [None] when the answer is a dictionary
    without that key; an answer that is not a dictionary raises
    [AttributeError]. *)
Theorem get_run_output_of_answer {W : Type} {services : Services W}
    (self : DBJobRun) (st : W * list api_call) answer w :
  runs_get_run_output (run_id self) (fst st) = (Return answer, w) ->
  (forall items, answer = JObj items ->
     fst (Run.get_run_output self st)
     = Return (match dict_get items "notebook_output" with
               | Some v => v
               | None => JNull
               end))
  /\ ((forall items, answer <> JObj items) ->
      fst (Run.get_run_output self st) = Raise AttributeError).
Proof.
  intros H. unfold Run.get_run_output, lbind, request, llift. rewrite H. cbn [fst].
  split.
  - intros items ->. cbn. destruct (dict_get items "notebook_output"); reflexivity.
  - intros Hnot. destruct answer; try reflexivity. destruct (Hnot items eq_refl).
Qed.

Lemma get_run_output_of_answer_witness :
  fst (Run.get_run_output RunScript.run_7 (RunScript.quiet, [])) = Return JNull.
Proof.
  exact (proj1 (get_run_output_of_answer (services := RunScript.services)
                  RunScript.run_7 (RunScript.quiet, []) (JObj []) RunScript.quiet eq_refl)
           [] eq_refl).
Defined.

(** ** Jobs: class [DBJob] *)

Section JobProperties.

Context {W : Type} {services : Services W}.

(** One call of [run_now], from the answer of the Jobs API. *)
Lemma run_now_run (self : DBJobObject) params (st : W * list api_call) r w :
  jobs_run_now (job_id (handle self)) params (fst st) = (r, w) ->
  Job.run_now self params st
  = let st' := (w, snd st ++ [Jobs_run_now (job_id (handle self)) params]) in
    match r with
    | Raise e => (Raise e, self, st')
    | Return d =>
        match getitem d "run_id" with
        | Raise e => (Raise e, self, st')
        | Return id =>
            (Return (mkDBJobRun (handle self) id),
             mkDBJobObject (handle self) (runs self ++ [mkDBJobRun (handle self) id]),
             st')
        end
    end.
Proof.
  intros H. unfold Job.run_now, request. rewrite H. destruct r; reflexivity.
Qed.

End JobProperties.

(** X19. [run_now] records a run only when it can return it. When the Jobs
    API answers with a dictionary that has a "run_id", the run returned
    carries that id and the job it was started from, and is appended at the
    end of the job's [runs]; when the answer has no "run_id" the call raises
    [KeyError] and [runs] is left as it was, although the run request has been
    sent. *)
Theorem run_now_records_the_run {W : Type} {services : Services W}
    (self : DBJobObject) params (st : W * list api_call) items w :
  let st' := (w, snd st ++ [Jobs_run_now (job_id (handle self)) params]) in
  jobs_run_now (job_id (handle self)) params (fst st) = (Return (JObj items), w) ->
  Job.run_now self params st
  = match dict_get items "run_id" with
    | Some id =>
        (Return (mkDBJobRun (handle self) id),
         mkDBJobObject (handle self) (runs self ++ [mkDBJobRun (handle self) id]),
         st')
    | None => (Raise (KeyError "run_id"), self, st')
    end.
Proof.
  intros st' H. rewrite (run_now_run self params st _ w H). cbn [getitem].
  destruct (dict_get items "run_id"); reflexivity.
Qed.

Lemma run_now_records_the_run_witness :
  let w := RunScript.mkWorld (Return "dapi-token") (Return "https://host")
             [Return (JObj [("run_id", JNum 7); ("number_in_job", JNum 1)])] [] [] in
  Job.run_now RunScript.job_42 RunScript.no_params (w, [])
  = (Return RunScript.run_7,
     mkDBJobObject (mkDBJob (JNum 42)) [RunScript.run_7],
     (RunScript.quiet, [Jobs_run_now (JNum 42) RunScript.no_params])).
Proof.
  intros w.
  exact (run_now_records_the_run (services := RunScript.services)
           RunScript.job_42 RunScript.no_params (w, [])
           [("run_id", JNum 7); ("number_in_job", JNum 1)] RunScript.quiet eq_refl).
Defined.

(** X20. Whatever the Jobs API answers (an error, a value that is not a
    dictionary, a dictionary with or without "run_id"), one call of [run_now]
    sends exactly one run request for the id of the job, leaves the job the
    same job, and never drops or reorders a run: when it returns a run, that
    run points back to the job and [runs] is the former list followed by it;
    when it raises, the job object is exactly as it was. *)
Theorem run_now_only_extends_runs {W : Type} {services : Services W}
    (self : DBJobObject) params (st : W * list api_call) :
  handle (snd (fst (Job.run_now self params st))) = handle self
  /\ snd (snd (Job.run_now self params st))
     = snd st ++ [Jobs_run_now (job_id (handle self)) params]
  /\ match fst (fst (Job.run_now self params st)) with
     | Return run =>
         runs (snd (fst (Job.run_now self params st))) = runs self ++ [run]
         /\ run_job run = handle self
     | Raise _ => snd (fst (Job.run_now self params st)) = self
     end.
Proof.
  destruct (pair_inv (jobs_run_now (job_id (handle self)) params (fst st)))
    as (r & w & H).
  rewrite (run_now_run self params st r w H). cbv zeta.
  destruct r as [d|e]; [|cbn; auto].
  destruct (getitem d "run_id") as [id|e]; cbn; auto.
Qed.

(** X21. [DBSApi.__init__] consults the notebook context only for what the
    caller left out: the API token is read only when [token] is [None], the
    host only when [host] is [None], the token first, and nothing else is
    called. A value that was passed, the empty string included, reaches the
    client as it is, and so does [apiVersion]. *)
Theorem client_init_reads_only_what_is_missing {W : Type} {services : Services W}
    token host apiVersion (st : W * list api_call) :
  exists read_token read_host,
    snd (snd (Client.init token host apiVersion st))
    = snd st ++ read_token ++ read_host
    /\ (read_token = [] \/ read_token = [Ctx_get_api_token] /\ token = None)
    /\ (read_host = [] \/ read_host = [Ctx_get_browser_host_name_url] /\ host = None)
    /\ (forall client,
          fst (Client.init token host apiVersion st) = Return client ->
          client_apiVersion client = apiVersion
          /\ (forall t, token = Some t -> client_token client = t /\ read_token = [])
          /\ (forall h, host = Some h -> client_host client = h /\ read_host = [])).
Proof.
  unfold Client.init, lbind, request, lret.
  destruct token as [t|], host as [h|];
    [ exists [], []
    | exists [], [Ctx_get_browser_host_name_url]
    | exists (match fst (get_api_token (fst st)) with _ => [Ctx_get_api_token] end), []
    | exists [Ctx_get_api_token],
        (match fst (get_api_token (fst st)) with
         | Return _ => [Ctx_get_browser_host_name_url]
         | Raise _ => []
         end) ];
    try destruct (get_api_token (fst st)) as [[t'|e] w];
    cbn [fst snd];
    try destruct (get_browser_host_name_url _) as [[h'|e'] w'];
    cbn [fst snd app]; rewrite <- ?app_assoc, ?app_nil_r; cbn [app];
    (split; [reflexivity|]);
    (split; [auto|]);
    (split; [auto|]);
    intros client Hc; try discriminate Hc; injection Hc as <-;
    (split; [reflexivity|]);
    split; intros x Hx; try discriminate Hx; injection Hx as <-;
    split; reflexivity.
Qed.

(** ** The geometry column of a layer *)

Lemma prefix_iff (a s : string) :
  String.prefix a s = true <-> exists b, s = (a ++ b)%string.
Proof.
  revert s. induction a as [|c a IH]; intros s.
  - split; [intros _; exists s; reflexivity|]. intros _. destruct s; reflexivity.
  - destruct s as [|c' s]; cbn.
    + split; [discriminate|intros (b & Hb); discriminate Hb].
    + destruct (ascii_dec c c') as [->|Hne].
      * rewrite IH. split; intros (b & Hb); exists b; [now rewrite Hb|].
        now injection Hb.
      * split; [discriminate|]. intros (b & Hb). injection Hb as Hc _.
        destruct (Hne (eq_sym Hc)).
Qed.

Lemma contains_iff (needle hay : string) :
  MapLayer.contains needle hay = true
  <-> exists a b, hay = (a ++ needle ++ b)%string.
Proof.
  induction hay as [|c hay IH]; cbn [MapLayer.contains].
  - rewrite String.eqb_eq. split.
    + intros ->. exists "", "". reflexivity.
    + intros (a & b & H). destruct a; [|discriminate H].
      destruct needle; [reflexivity|discriminate H].
  - rewrite orb_true_iff, prefix_iff, IH. split.
    + intros [(b & Hb)|(a & b & Hab)].
      * exists "", b. exact Hb.
      * exists (String c a), b. cbn. now rewrite Hab.
    + intros (a & b & H). destruct a as [|c' a].
      * left. exists b. exact H.
      * right. injection H as _ H. exists a, b. exact H.
Qed.

Lemma endswith_iff (s suffix : string) :
  MapLayer.endswith s suffix = true <-> exists a, s = (a ++ suffix)%string.
Proof.
  induction s as [|c s IH]; cbn [MapLayer.endswith].
  - rewrite orb_false_r, String.eqb_eq. split.
    + intros <-. exists "". reflexivity.
    + intros (a & H). destruct a; [exact H|discriminate H].
  - rewrite orb_true_iff, String.eqb_eq, IH. split.
    + intros [<-|(a & Ha)]; [exists ""; reflexivity|].
      exists (String c a). cbn. now rewrite Ha.
    + intros (a & H). destruct a as [|c' a]; [left; exact H|].
      right. injection H as _ H. exists a. exact H.
Qed.

(** The loop keeps, in order, the columns one of its tests accepts. *)
Lemma collect_filter columns : forall candidates,
  MapLayer.collect columns candidates
  = candidates ++ filter MapLayer.looks_like_geometry columns.
Proof.
  induction columns as [|column rest IH]; intros candidates; cbn [MapLayer.collect filter].
  - now rewrite app_nil_r.
  - rewrite IH. unfold MapLayer.looks_like_geometry.
    destruct (MapLayer.contains "geom" column);
      [cbn [orb]; now rewrite <- app_assoc|].
    destruct (MapLayer.contains "geography" column);
      [cbn [orb]; now rewrite <- app_assoc|].
    destruct (MapLayer.endswith column "wkt");
      [cbn [orb]; now rewrite <- app_assoc|reflexivity].
Qed.

(** X22. With a [geometry_col] argument, [get_geometry_col] returns that
    name exactly when it is one of the columns of the frame, whatever the
    names look like, and otherwise raises a [ValueError] that names the
    column. *)
Theorem get_geometry_col_explicit name columns :
  (In name columns -> MapLayer.get_geometry_col (Some name) columns = MapLayer.Ok name)
  /\ (~ In name columns ->
      MapLayer.get_geometry_col (Some name) columns
      = MapLayer.Err
          (MapLayer.ValueError ("Column " ++ name ++ " not found in data columns"))).
Proof.
  unfold MapLayer.get_geometry_col.
  destruct (existsb (String.eqb name) columns) eqn:He.
  - split; [reflexivity|]. intros Hnot. exfalso. apply Hnot.
    apply existsb_exists in He as (x & Hin & Hx). apply String.eqb_eq in Hx.
    now subst.
  - split; [|reflexivity]. intros Hin. exfalso.
    assert (Ht : existsb (String.eqb name) columns = true).
    { apply existsb_exists. exists name. split; [exact Hin|apply String.eqb_refl]. }
    congruence.
Qed.

(** X23. Without a [geometry_col] argument, [get_geometry_col] looks at
    the columns whose name contains "geom" or "geography" or ends with "wkt":
    with exactly one such column it returns it, with two or more it raises
    the [ValueError] that asks for the argument, and with none it raises
    [IndexError], not a [ValueError]. *)
Theorem get_geometry_col_inferred columns :
  MapLayer.get_geometry_col None columns
  = match filter MapLayer.looks_like_geometry columns with
    | [] => MapLayer.Err MapLayer.IndexError
    | [column] => MapLayer.Ok column
    | _ :: _ :: _ =>
        MapLayer.Err
          (MapLayer.ValueError "Specify the geometry_col argument for the data")
    end
  /\ (forall column,
        MapLayer.looks_like_geometry column = true
        <-> (exists a b, column = a ++ "geom" ++ b)%string
            \/ (exists a b, column = a ++ "geography" ++ b)%string
            \/ (exists a, column = a ++ "wkt")%string).
Proof.
  split.
  - unfold MapLayer.get_geometry_col. rewrite collect_filter. cbn [app].
    destruct (filter MapLayer.looks_like_geometry columns) as [|c1 [|c2 l]];
      reflexivity.
  - intros column. unfold MapLayer.looks_like_geometry.
    rewrite !orb_true_iff, !contains_iff, endswith_iff. tauto.
Qed.

(** ** Bounds of layers and maps *)

Section BoundsProperties.

Context {T : Type} (lt : T -> T -> bool).

(** What [<] has to satisfy: nothing is below itself, two values are not
    below each other, and "not above" is transitive. Every strict total
    order does, and so do numbers none of which is a NaN. *)
Hypothesis lt_irrefl : forall a, lt a a = false.
Hypothesis lt_asym : forall a b, lt a b = true -> lt b a = false.
Hypothesis le_trans : forall p q r, lt q p = false -> lt r q = false -> lt r p = false.

Lemma min2_below_l a x : lt a (MapLayer.min2 lt a x) = false.
Proof.
  unfold MapLayer.min2. destruct (lt x a) eqn:H; auto.
Qed.

Lemma min2_below_r a x : lt x (MapLayer.min2 lt a x) = false.
Proof.
  unfold MapLayer.min2. destruct (lt x a) eqn:H; auto.
Qed.

Lemma max2_above_l a x : lt (MapLayer.max2 lt a x) a = false.
Proof.
  unfold MapLayer.max2. destruct (lt a x) eqn:H; auto.
Qed.

Lemma max2_above_r a x : lt (MapLayer.max2 lt a x) x = false.
Proof.
  unfold MapLayer.max2. destruct (lt a x) eqn:H; auto.
Qed.

Lemma fold_min2_below l : forall a,
  lt a (fold_left (MapLayer.min2 lt) l a) = false
  /\ forall x, In x l -> lt x (fold_left (MapLayer.min2 lt) l a) = false.
Proof.
  induction l as [|y l IH]; intros a; cbn [fold_left].
  - split; [apply lt_irrefl|intros x []].
  - destruct (IH (MapLayer.min2 lt a y)) as (Hm & Hl). split.
    + exact (le_trans _ _ _ Hm (min2_below_l a y)).
    + intros x [<-|Hin]; [|exact (Hl x Hin)].
      exact (le_trans _ _ _ Hm (min2_below_r a y)).
Qed.

Lemma fold_max2_above l : forall a,
  lt (fold_left (MapLayer.max2 lt) l a) a = false
  /\ forall x, In x l -> lt (fold_left (MapLayer.max2 lt) l a) x = false.
Proof.
  induction l as [|y l IH]; intros a; cbn [fold_left].
  - split; [apply lt_irrefl|intros x []].
  - destruct (IH (MapLayer.max2 lt a y)) as (Hm & Hl). split.
    + exact (le_trans _ _ _ (max2_above_l a y) Hm).
    + intros x [<-|Hin]; [|exact (Hl x Hin)].
      exact (le_trans _ _ _ (max2_above_r a y) Hm).
Qed.

Lemma fold_min2_attained l : forall a,
  fold_left (MapLayer.min2 lt) l a = a \/ In (fold_left (MapLayer.min2 lt) l a) l.
Proof.
  induction l as [|y l IH]; intros a; cbn [fold_left]; [auto|].
  destruct (IH (MapLayer.min2 lt a y)) as [H|H]; [|right; right; exact H].
  rewrite H. unfold MapLayer.min2. destruct (lt y a); [right; left|left]; reflexivity.
Qed.

Lemma fold_max2_attained l : forall a,
  fold_left (MapLayer.max2 lt) l a = a \/ In (fold_left (MapLayer.max2 lt) l a) l.
Proof.
  induction l as [|y l IH]; intros a; cbn [fold_left]; [auto|].
  destruct (IH (MapLayer.max2 lt a y)) as [H|H]; [|right; right; exact H].
  rewrite H. unfold MapLayer.max2. destruct (lt a y); [right; left|left]; reflexivity.
Qed.

(** The loop of [get_bounds] is four folds, one per coordinate. *)
Lemma fold_widen_components (bs : list (MapLayer.box (T := T))) : forall a b c d,
  fold_left (MapLayer.widen lt) bs (Some (a, b, c, d))
  = Some (fold_left (MapLayer.min2 lt) (map (fun x => fst (fst (fst x))) bs) a,
          fold_left (MapLayer.min2 lt) (map (fun x => snd (fst (fst x))) bs) b,
          fold_left (MapLayer.max2 lt) (map (fun x => snd (fst x)) bs) c,
          fold_left (MapLayer.max2 lt) (map (fun x => snd x) bs) d).
Proof.
  induction bs as [|[[[x0 y0] x1] y1] bs IH]; intros a b c d; [reflexivity|].
  cbn [fold_left map MapLayer.widen fst snd]. apply IH.
Qed.

Lemma inside_trans (a b c : MapLayer.box (T := T)) :
  MapLayer.inside lt a b -> MapLayer.inside lt b c -> MapLayer.inside lt a c.
Proof.
  destruct a as [[[a0 a1] a2] a3], b as [[[b0 b1] b2] b3], c as [[[c0 c1] c2] c3].
  cbn. intros (H0 & H1 & H2 & H3) (K0 & K1 & K2 & K3).
  repeat split; eauto.
Qed.

Lemma inside_refl (a : MapLayer.box (T := T)) : MapLayer.inside lt a a.
Proof.
  destruct a as [[[a0 a1] a2] a3]. cbn. auto.
Qed.

(** Starting from a box, the loop ends in a box that holds it and every box
    it has been shown. *)
Lemma fold_widen_encloses (bs : list (MapLayer.box (T := T))) start :
  exists outer,
    fold_left (MapLayer.widen lt) bs (Some start) = Some outer
    /\ MapLayer.inside lt start outer
    /\ forall b, In b bs -> MapLayer.inside lt b outer.
Proof.
  destruct start as [[[a b] c] d]. rewrite fold_widen_components.
  eexists. split; [reflexivity|].
  destruct (fold_min2_below (map (fun x => fst (fst (fst x))) bs) a) as (A0 & A).
  destruct (fold_min2_below (map (fun x => snd (fst (fst x))) bs) b) as (B0 & B).
  destruct (fold_max2_above (map (fun x => snd (fst x)) bs) c) as (C0 & C).
  destruct (fold_max2_above (map (fun x => snd x) bs) d) as (D0 & D).
  split; [cbn; auto|].
  intros [[[x0 y0] x1] y1] Hin. cbn. repeat split.
  - apply A. apply (in_map (fun x => fst (fst (fst x))) _ _ Hin).
  - apply B. apply (in_map (fun x => snd (fst (fst x))) _ _ Hin).
  - apply C. apply (in_map (fun x => snd (fst x)) _ _ Hin).
  - apply D. apply (in_map (fun x => snd x) _ _ Hin).
Qed.

Lemma get_bounds_encloses (bs : list (MapLayer.box (T := T))) :
  bs <> [] ->
  exists outer,
    MapLayer.get_bounds lt bs = Some outer
    /\ forall b, In b bs -> MapLayer.inside lt b outer.
Proof.
  destruct bs as [|first rest]; [congruence|]. intros _.
  unfold MapLayer.get_bounds. cbn [fold_left MapLayer.widen].
  destruct (fold_widen_encloses rest first) as (outer & Hf & Hs & Hr).
  exists outer. split; [exact Hf|]. intros b [<-|Hin]; auto.
Qed.

Lemma map_widen_encloses (reported : list (option (MapLayer.box (T := T)))) :
  forall start,
    (forall r, In r reported -> r <> None) ->
    exists outer,
      MapLayer.map_widen lt reported (Some start) = MapLayer.Ok (Some outer)
      /\ MapLayer.inside lt start outer
      /\ forall b, In (Some b) reported -> MapLayer.inside lt b outer.
Proof.
  induction reported as [|r rest IH]; intros start Hall.
  - exists start. cbn. split; [reflexivity|]. split; [apply inside_refl|intros b []].
  - destruct r as [b|]; [|destruct (Hall None (or_introl eq_refl) eq_refl)].
    cbn [MapLayer.map_widen].
    destruct (fold_widen_encloses [b] start) as (step & Hstep & Hs & Hb).
    cbn [fold_left] in Hstep. rewrite Hstep.
    destruct (IH step (fun r Hr => Hall r (or_intror Hr))) as (outer & Ho & Hso & Hrest).
    exists outer. split; [exact Ho|]. split; [exact (inside_trans _ _ _ Hs Hso)|].
    intros b' [Heq|Hin]; [|exact (Hrest b' Hin)].
    injection Heq as <-. exact (inside_trans _ _ _ (Hb b (or_introl eq_refl)) Hso).
Qed.

End BoundsProperties.

Lemma map_widen_refuses_None {T : Type} (lt : T -> T -> bool)
    (reported : list (option (MapLayer.box (T := T)))) :
  forall start,
    In None reported ->
    MapLayer.map_widen lt reported (Some start) = MapLayer.Err MapLayer.TypeError.
Proof.
  induction reported as [|r rest IH]; intros start Hin; [destruct Hin|].
  cbn [MapLayer.map_widen]. destruct r as [b|]; [|reflexivity].
  destruct Hin as [Habs|Hin]; [discriminate Habs|].
  destruct start as [[[a0 a1] a2] a3], b as [[[b0 b1] b2] b3]. cbn [MapLayer.widen].
  apply IH, Hin.
Qed.

Lemma get_bounds_None {T : Type} (lt : T -> T -> bool) (bs : list (MapLayer.box (T := T))) :
  MapLayer.get_bounds lt bs = None <-> bs = [].
Proof.
  split; [|intros ->; reflexivity].
  destruct bs as [|[[[a b] c] d] rest]; [reflexivity|].
  intros H.
  change (fold_left (MapLayer.widen lt) rest (Some (a, b, c, d)) = None) in H.
  rewrite fold_widen_components in H. discriminate H.
Qed.

(** X24. [Layer.get_bounds] answers four [None] exactly for a layer without
    geometries. Otherwise, when [<] orders the coordinates, the box it
    answers holds the bounds of every geometry of the layer, and each of its
    four numbers is the corresponding bound of one of the geometries. *)
Theorem layer_bounds_enclose_every_geometry {T : Type} (lt : T -> T -> bool)
    (bs : list (MapLayer.box (T := T))) :
  (forall a, lt a a = false) ->
  (forall a b, lt a b = true -> lt b a = false) ->
  (forall p q r, lt q p = false -> lt r q = false -> lt r p = false) ->
  (MapLayer.get_bounds lt bs = None <-> bs = [])
  /\ forall minx miny maxx maxy,
       MapLayer.get_bounds lt bs = Some (minx, miny, maxx, maxy) ->
       (forall b, In b bs -> MapLayer.inside lt b (minx, miny, maxx, maxy))
       /\ In minx (map (fun x => fst (fst (fst x))) bs)
       /\ In miny (map (fun x => snd (fst (fst x))) bs)
       /\ In maxx (map (fun x => snd (fst x)) bs)
       /\ In maxy (map (fun x => snd x) bs).
Proof.
  intros Hirr Hasym Htrans. split; [apply get_bounds_None|].
  intros minx miny maxx maxy Hb.
  destruct bs as [|[[[a b] c] d] rest]; [discriminate Hb|].
  split.
  - destruct (get_bounds_encloses lt Hirr Hasym Htrans ((a, b, c, d) :: rest))
      as (outer & Ho & Hin); [discriminate|].
    pose proof (eq_trans (eq_sym Ho) Hb) as E. injection E as ->. exact Hin.
  - change (fold_left (MapLayer.widen lt) rest (Some (a, b, c, d))
            = Some (minx, miny, maxx, maxy)) in Hb.
    rewrite fold_widen_components in Hb. injection Hb as <- <- <- <-.
    cbn [map fst snd].
    destruct (fold_min2_attained lt (map (fun x => fst (fst (fst x))) rest) a) as [->|H0];
    destruct (fold_min2_attained lt (map (fun x => snd (fst (fst x))) rest) b) as [->|H1];
    destruct (fold_max2_attained lt (map (fun x => snd (fst x)) rest) c) as [->|H2];
    destruct (fold_max2_attained lt (map (fun x => snd x) rest) d) as [->|H3];
    repeat split; auto using in_eq, in_cons.
Qed.

Lemma layer_bounds_enclose_every_geometry_witness :
  MapLayer.get_bounds Z.ltb [(1, 5, 4, 6); (0, 7, 2, 9); (3, 2, 8, 3)]%Z
  = Some (0, 2, 8, 9)%Z
  /\ MapLayer.inside Z.ltb (3, 2, 8, 3)%Z (0, 2, 8, 9)%Z.
Proof.
  split; [reflexivity|].
  refine (proj1 (proj2 (layer_bounds_enclose_every_geometry Z.ltb
                          [(1, 5, 4, 6); (0, 7, 2, 9); (3, 2, 8, 3)]%Z _ _ _)
                   0 2 8 9 eq_refl)%Z (3, 2, 8, 3)%Z _).
  - intros a. apply Z.ltb_irrefl.
  - intros a b H. apply Z.ltb_lt in H. apply Z.ltb_ge. lia.
  - intros p q r H1 H2. apply Z.ltb_ge in H1, H2. apply Z.ltb_ge. lia.
  - cbn. auto.
Defined.

(** X25. [Map.get_bounds] over layers that all hold geometries answers,
    when [<] orders the coordinates, a box that holds the bounds of every
    geometry of every layer (and four [None] when there is no layer). A
    layer without geometries that comes after a layer with some makes it
    raise [TypeError]. *)
Theorem map_bounds_enclose_every_layer {T : Type} (lt : T -> T -> bool)
    (layers : list (list (MapLayer.box (T := T)))) :
  (forall a, lt a a = false) ->
  (forall a b, lt a b = true -> lt b a = false) ->
  (forall p q r, lt q p = false -> lt r q = false -> lt r p = false) ->
  ((forall layer, In layer layers -> layer <> []) ->
   match layers with
   | [] => MapLayer.map_get_bounds lt layers = MapLayer.Ok None
   | _ :: _ =>
       exists outer,
         MapLayer.map_get_bounds lt layers = MapLayer.Ok (Some outer)
         /\ forall layer b, In layer layers -> In b layer -> MapLayer.inside lt b outer
   end)
  /\ (forall first rest,
        layers = first :: rest -> first <> [] -> In [] rest ->
        MapLayer.map_get_bounds lt layers = MapLayer.Err MapLayer.TypeError).
Proof.
  intros Hirr Hasym Htrans. split.
  - intros Hall. destruct layers as [|first rest]; [reflexivity|].
    unfold MapLayer.map_get_bounds. cbn [map MapLayer.map_widen].
    destruct (get_bounds_encloses lt Hirr Hasym Htrans first
                (Hall first (or_introl eq_refl))) as (fb & Hfb & Hfirst).
    rewrite Hfb.
    destruct (map_widen_encloses lt Hirr Hasym Htrans
                (map (MapLayer.get_bounds lt) rest) fb) as (outer & Ho & Hs & Hrest).
    { intros r Hr. apply in_map_iff in Hr as (layer & <- & Hin).
      intros Hnone. apply get_bounds_None in Hnone.
      exact (Hall layer (or_intror Hin) Hnone). }
    exists outer. split; [exact Ho|].
    intros layer b [<-|Hin] Hb.
    + exact (inside_trans lt Htrans _ _ _ (Hfirst b Hb) Hs).
    + destruct (get_bounds_encloses lt Hirr Hasym Htrans layer
                  (Hall layer (or_intror Hin))) as (lb & Hlb & Hlayer).
      apply (inside_trans lt Htrans _ lb); [exact (Hlayer b Hb)|].
      apply Hrest. rewrite <- Hlb. apply in_map, Hin.
  - intros first rest -> Hne Hin.
    unfold MapLayer.map_get_bounds. cbn [map MapLayer.map_widen].
    destruct (MapLayer.get_bounds lt first) as [fb|] eqn:Hfb.
    + apply map_widen_refuses_None.
      apply in_map_iff. exists []. split; [reflexivity|exact Hin].
    + apply get_bounds_None in Hfb. destruct (Hne Hfb).
Qed.

Lemma map_bounds_enclose_every_layer_witness :
  MapLayer.map_get_bounds Z.ltb [[(1, 5, 4, 6)]; []]%Z = MapLayer.Err MapLayer.TypeError.
Proof.
  refine (proj2 (map_bounds_enclose_every_layer Z.ltb [[(1, 5, 4, 6)]; []]%Z _ _ _)
            [(1, 5, 4, 6)]%Z [[]] eq_refl _ _).
  - intros a. apply Z.ltb_irrefl.
  - intros a b H. apply Z.ltb_lt in H. apply Z.ltb_ge. lia.
  - intros p q r H1 H2. apply Z.ltb_ge in H1, H2. apply Z.ltb_ge. lia.
  - discriminate.
  - left. reflexivity.
Defined.
